(** * MyNewsApp: the Browse, Trending and App components

    A shallow embedding of [src/app/screens/browse.tsx] (the Browse screen)
    and of the two components of [src/unnamed/part_000] (the root [App]
    component and the Trending screen), followed by the properties of the
    specification that concern them.

    Conventions of the embedding.
    - A promise is modelled by the value it settles to ([Outcome]): an
      [await] of a rejected promise throws, which the [Async] monad threads
      as an early exit up to the nearest [try_catch].
    - The hooks' state cells are an explicit record; the setters write to
      the live record, whereas the [const] bindings a closure reads
      ([documentId], [selectedCategories]) are those of the render that
      created the closure.
    - Every call to a collaborator, to [console.log] and to [showSnackbar]
      is recorded, in program order, in the list of events an operation
      returns.
    - Each asynchronous function runs to completion before the next user
      action; overlapping saves are outside the model. *)

From stdpp Require Import base option list strings gmap fin_maps.

Set Warnings "-clear-no-such-hyp".

(** ** JavaScript values *)

(** A settled promise. *)
Inductive Outcome (A : Type) : Type :=
| Resolved (value : A)
| Rejected (reason : string).
Arguments Resolved {A} value.
Arguments Rejected {A} reason.

(** The account returned by [appwrite.getCurrentUser()]; [$id] may be
    missing. *)
Record User := {
  user_id : option string;
  user_name : string;
  user_email : string;
}.

Record UserObj := {
  name : string;
  email : string;
}.

Record NewsArticle := {
  url : string;
  title : string;
  author : option string;
  content : option string;
  urlToImage : option string;
  description : string;
  publishedAt : string;
  source : option (option string * string);
}.

(** The preference document: [$id] and [interested_categories]. *)
Record PreferenceDocument := {
  doc_id : option string;
  interested_categories : list string;
}.

(** Truthiness of a [string | null | undefined]: only a non-empty string
    passes an [if]. *)
Definition truthy (s : option string) : bool :=
  match s with
  | Some EmptyString => false
  | Some _ => true
  | None => false
  end.

(** [user && user.$id] *)
Definition has_id (user : option User) : bool :=
  match user with
  | Some u => truthy (user_id u)
  | None => false
  end.

(** [response && response.$id] *)
Definition response_has_id (response : option PreferenceDocument) : bool :=
  match response with
  | Some d => truthy (doc_id d)
  | None => false
  end.

(** ** Events *)

(** The requests the components send to their collaborators. *)
Inductive Request : Type :=
| getCurrentUser_
| createpreferences_ (userid : string) (categories : list string)
| savepreferences_ (documentid userid : string) (categories : list string)
| getpreferences_ (userid : string)
| getCategoryNewsFromAPI_ (categories : list string)
| getTrendingNewsFromAPI_.

(** What an operation does that is visible outside the component state. *)
Inductive Event : Type :=
| Call (request : Request) (rejection : option string)
| ConsoleLog (message : string) (detail : option string)
| ShowSnackbar (message : string)
| UnhandledRejection (reason : string).

Definition is_create (e : Event) : bool :=
  match e with Call (createpreferences_ _ _) _ => true | _ => false end.

Definition is_save (e : Event) : bool :=
  match e with Call (savepreferences_ _ _ _) _ => true | _ => false end.

(** A persistence call is a create or a save. *)
Definition is_persistence (e : Event) : bool := is_create e || is_save e.

Definition is_news_fetch (e : Event) : bool :=
  match e with
  | Call (getCategoryNewsFromAPI_ _) _ => true
  | Call getTrendingNewsFromAPI_ _ => true
  | _ => false
  end.

Definition is_snackbar (e : Event) : bool :=
  match e with ShowSnackbar _ => true | _ => false end.

Definition is_console (e : Event) : bool :=
  match e with ConsoleLog _ _ => true | _ => false end.

Definition is_rejected_call (e : Event) : bool :=
  match e with Call _ (Some _) => true | _ => false end.

Definition count (p : Event → bool) (events : list Event) : nat :=
  length (List.filter p events).

Definition rejection_of {A} (o : Outcome A) : option string :=
  match o with Resolved _ => None | Rejected r => Some r end.

(** ** Asynchronous functions

    An [async] body over component state [S]: it settles to an outcome,
    leaves a new state and emits events. *)
Definition Async (S A : Type) : Type := S → Outcome A * S * list Event.

Definition run {S A} (m : Async S A) (s : S) : Outcome A * S * list Event := m s.

Definition settled {S A} (r : Outcome A * S * list Event) : Outcome A := r.1.1.
Definition state_of {S A} (r : Outcome A * S * list Event) : S := r.1.2.
Definition events_of {S A} (r : Outcome A * S * list Event) : list Event := r.2.

Section Monad.
Context {S : Type}.

Definition pure {A} (a : A) : Async S A := λ s, (Resolved a, s, []).

Definition andThen {A B} (m : Async S A) (k : A → Async S B) : Async S B :=
  λ s,
    match m s with
    | (Resolved a, s1, e1) =>
        match k a s1 with (o, s2, e2) => (o, s2, e1 ++ e2) end
    | (Rejected r, s1, e1) => (Rejected r, s1, e1)
    end.

(** [try { body } catch (error) { handler }] *)
Definition try_catch {A} (body : Async S A) (handler : string → Async S A)
  : Async S A :=
  λ s,
    match body s with
    | (Resolved a, s1, e1) => (Resolved a, s1, e1)
    | (Rejected r, s1, e1) =>
        match handler r s1 with (o, s2, e2) => (o, s2, e1 ++ e2) end
    end.

(** [try { body } finally { cleanup }] *)
Definition try_finally {A} (body : Async S A) (cleanup : Async S unit)
  : Async S A :=
  λ s,
    match body s with
    | (o, s1, e1) =>
        match cleanup s1 with
        | (Resolved _, s2, e2) => (o, s2, e1 ++ e2)
        | (Rejected r, s2, e2) => (Rejected r, s2, e1 ++ e2)
        end
    end.

Definition emit (e : Event) : Async S unit := λ s, (Resolved tt, s, [e]).

Definition setState (f : S → S) : Async S unit := λ s, (Resolved tt, f s, []).

Definition getState : Async S S := λ s, (Resolved s, s, []).

(** [await collaborator.request(...)]: the call is recorded together with
    the way it settled. *)
Definition await {A} (request : Request) (o : Outcome A) : Async S A :=
  λ s, (o, s, [Call request (rejection_of o)]).

Definition console_log (message : string) (detail : option string)
  : Async S unit :=
  emit (ConsoleLog message detail).

(** A promise nobody awaits: the caller goes on whatever happens, and a
    rejection that reaches the top of the promise is left unhandled. *)
Definition floating {A} (m : Async S A) : Async S unit :=
  λ s,
    match m s with
    | (Resolved _, s1, e1) => (Resolved tt, s1, e1)
    | (Rejected r, s1, e1) => (Resolved tt, s1, e1 ++ [UnhandledRejection r])
    end.

(** [for (const x of xs) { acc = body(acc, x) }] with awaits in the body. *)
Fixpoint for_of {A B} (xs : list A) (acc : B) (body : B → A → Async S B)
  : Async S B :=
  match xs with
  | [] => pure acc
  | x :: rest => andThen (body acc x) (λ acc', for_of rest acc' body)
  end.
End Monad.

Notation "x <- m ;; k" := (andThen m (λ x, k))
  (at level 100, m at next level, right associativity,
   format "'[v' x  <-  m  ;; '/' k ']'").
Notation "m ;;; k" := (andThen m (λ _, k))
  (at level 100, right associativity, format "'[v' m  ;;; '/' k ']'").

(** ** Collaborators *)

(** What a storage method does before its promise settles: it may use the
    [showSnackbar] callback it was handed. *)
Record Reply (A : Type) := {
  shown : list string;
  outcome : Outcome A;
}.
Arguments shown {A} _.
Arguments outcome {A} _.

(** The behaviour of the backend-as-a-service collaborator during one
    operation of a screen. *)
Record Appwrite := {
  getCurrentUser : Outcome (option User);
  createpreferences : string → list string → Reply (option PreferenceDocument);
  savepreferences :
    string → string → list string → Reply (option PreferenceDocument);
  getpreferences : string → Reply (option PreferenceDocument);
}.

(** The behaviour of [NewsService]. A response is a JavaScript object from
    category names to article arrays, or nothing. *)
Record NewsService := {
  getCategoryNewsFromAPI :
    list string → Outcome (option (gmap string (list NewsArticle)));
  getTrendingNewsFromAPI : Outcome (option (gmap string (list NewsArticle)));
}.

(** [useCallback(fn, [])]: the function of the first render is kept and
    handed back by every later render, because an empty dependency list
    never changes. A callback is represented by the render whose bindings
    it closes over. *)
Definition useCallback {R} (memoized : option R) (thisRender : R) : R :=
  match memoized with
  | Some first => first
  | None => thisRender
  end.

(** ** The Browse screen ([src/app/screens/browse.tsx]) *)

Module Browse.

(** The [useState] cells of the component, in declaration order. *)
Record State := {
  userData : option UserObj;
  newsData : gmap string (list NewsArticle);
  selectedCategories : list string;
  snackbarVisible : bool;
  snackbarMessage : string;
  documentId : option string;
  isLoading : bool;
  isRefreshing : bool;
  error : option string;
}.

(** The initial values handed to [useState]. *)
Definition initial : State := {|
  userData := None;
  newsData := ∅;
  selectedCategories := [];
  snackbarVisible := false;
  snackbarMessage := EmptyString;
  documentId := None;
  isLoading := false;
  isRefreshing := false;
  error := None;
|}.

Definition categories : list string := [
  "Corporate/Industry Events";
  "Ideas Festivals";
  "Political Events";
  "Social Events";
  "Lifestyle Expos";
  "Cultural Events";
  "Galas and Awards";
  "Education and Training Workshops";
  "Listening and Community Events"
].

(** *** Setters *)

Definition setUserData (v : option UserObj) : Async State unit :=
  setState (λ s, {|
    userData := v; newsData := newsData s;
    selectedCategories := selectedCategories s;
    snackbarVisible := snackbarVisible s;
    snackbarMessage := snackbarMessage s; documentId := documentId s;
    isLoading := isLoading s; isRefreshing := isRefreshing s;
    error := error s |}).

Definition setNewsData (v : gmap string (list NewsArticle))
  : Async State unit :=
  setState (λ s, {|
    userData := userData s; newsData := v;
    selectedCategories := selectedCategories s;
    snackbarVisible := snackbarVisible s;
    snackbarMessage := snackbarMessage s; documentId := documentId s;
    isLoading := isLoading s; isRefreshing := isRefreshing s;
    error := error s |}).

Definition setSelectedCategories (v : list string) : Async State unit :=
  setState (λ s, {|
    userData := userData s; newsData := newsData s;
    selectedCategories := v;
    snackbarVisible := snackbarVisible s;
    snackbarMessage := snackbarMessage s; documentId := documentId s;
    isLoading := isLoading s; isRefreshing := isRefreshing s;
    error := error s |}).

Definition setSnackbarVisible (v : bool) : Async State unit :=
  setState (λ s, {|
    userData := userData s; newsData := newsData s;
    selectedCategories := selectedCategories s;
    snackbarVisible := v;
    snackbarMessage := snackbarMessage s; documentId := documentId s;
    isLoading := isLoading s; isRefreshing := isRefreshing s;
    error := error s |}).

Definition setSnackbarMessage (v : string) : Async State unit :=
  setState (λ s, {|
    userData := userData s; newsData := newsData s;
    selectedCategories := selectedCategories s;
    snackbarVisible := snackbarVisible s;
    snackbarMessage := v; documentId := documentId s;
    isLoading := isLoading s; isRefreshing := isRefreshing s;
    error := error s |}).

Definition setDocumentId (v : option string) : Async State unit :=
  setState (λ s, {|
    userData := userData s; newsData := newsData s;
    selectedCategories := selectedCategories s;
    snackbarVisible := snackbarVisible s;
    snackbarMessage := snackbarMessage s; documentId := v;
    isLoading := isLoading s; isRefreshing := isRefreshing s;
    error := error s |}).

Definition setIsLoading (v : bool) : Async State unit :=
  setState (λ s, {|
    userData := userData s; newsData := newsData s;
    selectedCategories := selectedCategories s;
    snackbarVisible := snackbarVisible s;
    snackbarMessage := snackbarMessage s; documentId := documentId s;
    isLoading := v; isRefreshing := isRefreshing s;
    error := error s |}).

Definition setIsRefreshing (v : bool) : Async State unit :=
  setState (λ s, {|
    userData := userData s; newsData := newsData s;
    selectedCategories := selectedCategories s;
    snackbarVisible := snackbarVisible s;
    snackbarMessage := snackbarMessage s; documentId := documentId s;
    isLoading := isLoading s; isRefreshing := v;
    error := error s |}).

Definition setError (v : option string) : Async State unit :=
  setState (λ s, {|
    userData := userData s; newsData := newsData s;
    selectedCategories := selectedCategories s;
    snackbarVisible := snackbarVisible s;
    snackbarMessage := snackbarMessage s; documentId := documentId s;
    isLoading := isLoading s; isRefreshing := isRefreshing s;
    error := v |}).

(** *** The functions of the component *)

Definition showSnackbar (message : string) : Async State unit :=
  emit (ShowSnackbar message) ;;;
  setSnackbarMessage message ;;;
  setSnackbarVisible true.

(** The cells after [showSnackbar] has been called with each of
    [messages] in turn: the last message is the one on display. *)
Definition shownState (messages : list string) (s : State) : State :=
  match last messages with
  | Some message => {|
      userData := userData s; newsData := newsData s;
      selectedCategories := selectedCategories s;
      snackbarVisible := true;
      snackbarMessage := message; documentId := documentId s;
      isLoading := isLoading s; isRefreshing := isRefreshing s;
      error := error s |}
  | None => s
  end.

(** A storage method that was given [showSnackbar]: whatever it shows
    comes before its promise settles. *)
Definition awaitReply {A} (request : Request) (reply : Reply A)
  : Async State A :=
  for_of (shown reply) tt (λ _ message, showSnackbar message) ;;;
  await request (outcome reply).

(** [saveCategoriesToDatabase], lines 68-104. [render] is the render whose
    [documentId] binding the function closes over. *)
Definition saveCategoriesToDatabase (render : State) (appwrite : Appwrite)
    (categories : list string) : Async State unit :=
  try_catch
    (user <- await getCurrentUser_ (getCurrentUser appwrite) ;;
     if has_id user then
       let userId := default EmptyString (user ≫= user_id) in
       (if truthy (documentId render) then
          let documentid := default EmptyString (documentId render) in
          _ <- awaitReply (savepreferences_ documentid userId categories)
                 (savepreferences appwrite documentid userId categories) ;;
          pure tt
        else
          response <- awaitReply (createpreferences_ userId categories)
                        (createpreferences appwrite userId categories) ;;
          if response_has_id response then
            setDocumentId (response ≫= doc_id)
          else
            console_log
              "Error: response from createpreferences is undefined" None) ;;;
       showSnackbar "Preferences updated successfully"
     else pure tt)
    (λ error, console_log "Error saving categories:" (Some error)).

(** The updater passed to [setSelectedCategories], lines 58-65. *)
Definition updatedCategories (prev : list string) (category : string)
  : list string :=
  if bool_decide (category ∈ prev)
  then filter (λ c, c ≠ category) prev
  else prev ++ [category].

(** [toggleCategory], lines 57-66. The save is started inside the updater
    and not awaited; it receives the updated list as its argument and never
    reads [selectedCategories], so it may run to its end before the cell is
    written. [render] is the render this [toggleCategory] was created in. *)
Definition toggleCategory (render : State) (appwrite : Appwrite)
    (category : string) : Async State unit :=
  s <- getState ;;
  let updated := updatedCategories (selectedCategories s) category in
  floating (saveCategoriesToDatabase render appwrite updated) ;;;
  setSelectedCategories updated.

(** [loadSavedCategories], lines 106-127. *)
Definition loadSavedCategories (appwrite : Appwrite) : Async State unit :=
  try_catch
    (user <- await getCurrentUser_ (getCurrentUser appwrite) ;;
     if has_id user then
       let userId := default EmptyString (user ≫= user_id) in
       response <- awaitReply (getpreferences_ userId)
                     (getpreferences appwrite userId) ;;
       match response with
       | Some document =>
           setSelectedCategories (interested_categories document) ;;;
           setDocumentId (doc_id document)
       | None =>
           setSelectedCategories [] ;;;
           setDocumentId None
       end
     else pure tt)
    (λ error, console_log "Error fetching saved categories:" (Some error)).

(** [onRefresh], lines 129-139. It is wrapped in [useCallback(..., [])] as
    well, but the [loadSavedCategories] it keeps reads no cell. *)
Definition onRefresh (appwrite : Appwrite) : Async State unit :=
  setIsRefreshing true ;;;
  try_finally
    (try_catch
       (loadSavedCategories appwrite ;;;
        setError None)
       (λ _, setError (Some "Failed to refresh data")))
    (setIsRefreshing false).

(** The effect on [appwrite], lines 141-154. [setIsLoggedIn] belongs to
    the context and does not touch the cells of this screen. The promise
    chain has no [catch]. *)
Definition userEffect (appwrite : Appwrite) : Async State unit :=
  floating
    (response <- await getCurrentUser_ (getCurrentUser appwrite) ;;
     match response with
     | Some account =>
         setUserData (Some {| name := user_name account;
                              email := user_email account |}) ;;;
         floating (loadSavedCategories appwrite)
     | None => pure tt
     end).

(** The body of the loop of [fetchNewsData], lines 165-168. *)
Definition fetchCategory (newsService : NewsService)
    (categoryData : gmap string (list NewsArticle)) (category : string)
  : Async State (gmap string (list NewsArticle)) :=
  response <- await (getCategoryNewsFromAPI_ [category])
                (getCategoryNewsFromAPI newsService [category]) ;;
  match response ≫= (λ r, r !! category) with
  | Some articles => pure (<[category := take 20 articles]> categoryData)
  | None => pure categoryData
  end.

(** [fetchNewsData], lines 157-177. [render] is the render whose
    [selectedCategories] the effect closes over. *)
Definition fetchNewsData (render : State) (newsService : NewsService)
  : Async State unit :=
  setIsLoading true ;;;
  setError None ;;;
  try_finally
    (try_catch
       (categoryData <-
          for_of (selectedCategories render) ∅ (fetchCategory newsService) ;;
        setNewsData categoryData)
       (λ _,
          setError (Some "Failed to fetch news") ;;;
          showSnackbar "Error loading news"))
    (setIsLoading false).

(** The effect on [selectedCategories], lines 156-182. *)
Definition newsEffect (render : State) (newsService : NewsService)
  : Async State unit :=
  if Nat.ltb 0 (length (selectedCategories render))
  then floating (fetchNewsData render newsService)
  else pure tt.

(** *** What the screen shows, lines 217-258 *)

Inductive NewsContainer : Type :=
| ActivityIndicator
| EmptyStateText (text : string)
| Articles (sections : list (string * list NewsArticle)).

Definition newsContainer (s : State) : NewsContainer :=
  if isLoading s then ActivityIndicator
  else if Nat.eqb (length (selectedCategories s)) 0
  then EmptyStateText "Select categories to see news"
  else if Nat.eqb (size (newsData s)) 0
  then EmptyStateText "No news found for selected categories"
  else Articles (map_to_list (newsData s)).

(** *** The mounted component *)

(** The cells together with what [useCallback] remembers for
    [toggleCategory]: the render the cached function belongs to. *)
Record Fiber := {
  cells : State;
  toggleCategory_memo : option State;
}.

(** One call of the component function: [toggleCategory] is
    [useCallback(..., [])]. *)
Definition render (f : Fiber) : Fiber := {|
  cells := cells f;
  toggleCategory_memo :=
    Some (useCallback (toggleCategory_memo f) (cells f));
|}.

(** The render in whose scope the [toggleCategory] of the buttons looks up
    [saveCategoriesToDatabase], and with it [documentId]. *)
Definition toggleCategory_scope (f : Fiber) : State :=
  useCallback (toggleCategory_memo f) (cells f).

Definition mount : Fiber :=
  render {| cells := initial; toggleCategory_memo := None |}.

(** Running something against the cells, then rendering again. *)
Definition step (f : Fiber) (m : Async State unit) : Fiber * list Event :=
  let r := run m (cells f) in
  (render {| cells := state_of r;
             toggleCategory_memo := toggleCategory_memo f |},
   events_of r).

(** The mount effects: the user effect, and the news effect of the first
    render. *)
Definition mounted (appwrite : Appwrite) (newsService : NewsService)
  : Fiber * list Event :=
  let '(f1, e1) := step mount (newsEffect (cells mount) newsService) in
  let '(f2, e2) := step f1 (userEffect appwrite) in
  let '(f3, e3) := step f2 (newsEffect (cells f2) newsService) in
  (f3, e1 ++ e2 ++ e3).

(** A press on a category button: [toggleCategory], the render it causes,
    and the effect on the new [selectedCategories]. *)
Definition press (appwrite : Appwrite) (newsService : NewsService)
    (category : string) (f : Fiber) : Fiber * list Event :=
  let '(f1, e1) :=
    step f (toggleCategory (toggleCategory_scope f) appwrite category) in
  let '(f2, e2) := step f1 (newsEffect (cells f1) newsService) in
  (f2, e1 ++ e2).

(** A session: the collaborators' behaviour at each press, and the
    category pressed. *)
Fixpoint presses (script : list (Appwrite * NewsService * string))
    (f : Fiber) : Fiber * list Event :=
  match script with
  | [] => (f, [])
  | (appwrite, newsService, category) :: rest =>
      let '(f1, e1) := press appwrite newsService category f in
      let '(f2, e2) := presses rest f1 in
      (f2, e1 ++ e2)
  end.

End Browse.

(** ** The Trending screen ([src/unnamed/part_000], second component) *)

Module Trending.

Record State := {
  userData : option UserObj;
  newsData : gmap string (list NewsArticle);
}.

Definition initial : State := {| userData := None; newsData := ∅ |}.

Definition setUserData (v : option UserObj) : Async State unit :=
  setState (λ s, {| userData := v; newsData := newsData s |}).

Definition setNewsData (v : gmap string (list NewsArticle))
  : Async State unit :=
  setState (λ s, {| userData := userData s; newsData := v |}).

(** The loop over [Object.entries(response)], lines 110-112. *)
Definition sliceEntries (response : gmap string (list NewsArticle))
  : gmap string (list NewsArticle) :=
  map_fold (λ category articles categoryData,
              <[category := take 20 articles]> categoryData) ∅ response.

(** [fetchNewsData], lines 103-118. *)
Definition fetchNewsData (newsService : NewsService) : Async State unit :=
  try_catch
    (response <- await getTrendingNewsFromAPI_
                   (getTrendingNewsFromAPI newsService) ;;
     let categoryData :=
       match response with
       | Some r => sliceEntries r
       | None => ∅
       end in
     setNewsData categoryData)
    (λ error, console_log "Failed to fetch news:" (Some error)).

(** The effect on [appwrite], lines 89-100; no [catch]. *)
Definition userEffect (appwrite : Appwrite) : Async State unit :=
  floating
    (response <- await getCurrentUser_ (getCurrentUser appwrite) ;;
     match response with
     | Some account =>
         setUserData (Some {| name := user_name account;
                              email := user_email account |})
     | None => pure tt
     end).

(** The sections of the news container, lines 127-145: one per key of
    [newsData], each with the articles stored under it. *)
Definition newsContainer (s : State) : list (string * list NewsArticle) :=
  map_to_list (newsData s).

(** The screen after its two mount effects. *)
Definition mounted (appwrite : Appwrite) (newsService : NewsService)
  : State * list Event :=
  let r1 := run (userEffect appwrite) initial in
  let r2 := run (floating (fetchNewsData newsService)) (state_of r1) in
  (state_of r2, events_of r1 ++ events_of r2).

End Trending.

(** ** The root component ([src/unnamed/part_000], first component) *)

Module App.

(** [isLoading] is a cell of the component; [isLoggedIn] is the value the
    component reads from [AppwriteContext] and writes through
    [setIsLoggedIn]. The font effect writes only [fontsLoaded], which the
    render never reads, and is left out. *)
Record State := {
  isLoading : bool;
  isLoggedIn : bool;
}.

(** Modelled from the spec: the provider of [AppwriteContext]
    ([./appwrite/appwritecontext]) is not among the sources. The
    specification's default state is "no user": the flag the provider
    starts with is [false]. *)
Definition contextIsLoggedIn : bool := false.

(** The first render: [useState<boolean>(true)] and the flag of the
    context. *)
Definition initial (isLoggedIn0 : bool) : State :=
  {| isLoading := true; isLoggedIn := isLoggedIn0 |}.

Definition setIsLoading (v : bool) : Async State unit :=
  setState (λ s, {| isLoading := v; isLoggedIn := isLoggedIn s |}).

Definition setIsLoggedIn (v : bool) : Async State unit :=
  setState (λ s, {| isLoading := isLoading s; isLoggedIn := v |}).

(** The effect of lines 30-43: [getCurrentUser().then(...).catch(...)]. *)
Definition authEffect (appwrite : Appwrite) : Async State unit :=
  floating
    (try_catch
       (response <- await getCurrentUser_ (getCurrentUser appwrite) ;;
        setIsLoading false ;;;
        match response with
        | Some _ => setIsLoggedIn true
        | None => pure tt
        end)
       (λ _,
          setIsLoading false ;;;
          setIsLoggedIn false)).

Inductive View : Type :=
| Loading
| RouteStack (initialRoute : string).

(** Lines 45-55. *)
Definition view (s : State) : View :=
  if isLoading s then Loading
  else RouteStack (if isLoggedIn s then "Home" else "Login").

(** The application once the promise of the effect has settled. *)
Definition started (isLoggedIn0 : bool) (appwrite : Appwrite)
  : State * list Event :=
  let r := run (authEffect appwrite) (initial isLoggedIn0) in
  (state_of r, events_of r).

End App.

(** ** Sample collaborators

    Concrete behaviours used to run the components. *)

Definition ann : User := {|
  user_id := Some "u1";
  user_name := "Ann";
  user_email := "ann@example.org";
|}.

Definition silently {A} (o : Outcome A) : Reply A :=
  {| shown := []; outcome := o |}.

(** A healthy backend for a user without a preference document: every
    create answers with a document whose identifier is [d1]. *)
Definition appwriteOk : Appwrite := {|
  getCurrentUser := Resolved (Some ann);
  createpreferences := λ _ categories,
    silently (Resolved (Some {| doc_id := Some "d1";
                                interested_categories := categories |}));
  savepreferences := λ documentid _ categories,
    silently (Resolved (Some {| doc_id := Some documentid;
                                interested_categories := categories |}));
  getpreferences := λ _, silently (Resolved None);
|}.

(** Nobody is signed in. *)
Definition appwriteNoUser : Appwrite := {|
  getCurrentUser := Resolved None;
  createpreferences := createpreferences appwriteOk;
  savepreferences := savepreferences appwriteOk;
  getpreferences := getpreferences appwriteOk;
|}.

(** The backend cannot be reached. *)
Definition appwriteDown : Appwrite := {|
  getCurrentUser := Rejected "Network request failed";
  createpreferences := λ _ _, silently (Rejected "Network request failed");
  savepreferences := λ _ _ _, silently (Rejected "Network request failed");
  getpreferences := λ _, silently (Rejected "Network request failed");
|}.

(** The user is known, the preference query fails. *)
Definition appwritePrefsDown : Appwrite := {|
  getCurrentUser := Resolved (Some ann);
  createpreferences := createpreferences appwriteOk;
  savepreferences := savepreferences appwriteOk;
  getpreferences := λ _, silently (Rejected "Network request failed");
|}.

(** [createpreferences] resolves with nothing. *)
Definition appwriteCreateEmpty : Appwrite := {|
  getCurrentUser := Resolved (Some ann);
  createpreferences := λ _ _, silently (Resolved None);
  savepreferences := savepreferences appwriteOk;
  getpreferences := getpreferences appwriteOk;
|}.

Definition article (n : nat) : NewsArticle := {|
  url := "https://news.example.org/" +:+ String (Ascii.ascii_of_nat (65 + n)) EmptyString;
  title := "Story " +:+ String (Ascii.ascii_of_nat (65 + n)) EmptyString;
  author := None;
  content := None;
  urlToImage := None;
  description := "A story";
  publishedAt := "2024-01-01T00:00:00Z";
  source := None;
|}.

(** [n] distinct articles. *)
Definition articles (n : nat) : list NewsArticle := article <$> seq 0 n.

(** A news service with twenty-five articles in every category asked for. *)
Definition news25 : NewsService := {|
  getCategoryNewsFromAPI := λ categories,
    Resolved (Some (list_to_map ((λ c, (c, articles 25)) <$> categories)));
  getTrendingNewsFromAPI :=
    Resolved (Some {[ "general" := articles 25 ]});
|}.

(** A news service that answers with nothing. *)
Definition newsNone : NewsService := {|
  getCategoryNewsFromAPI := λ _, Resolved None;
  getTrendingNewsFromAPI := Resolved None;
|}.

(** A news service that cannot be reached. *)
Definition newsDown : NewsService := {|
  getCategoryNewsFromAPI := λ _, Rejected "Network request failed";
  getTrendingNewsFromAPI := Rejected "Network request failed";
|}.

(** The Browse screen of a signed-in user after a first press on
    "Social Events". *)
Definition browsing : Browse.Fiber :=
  (Browse.press appwriteOk news25 "Social Events"
     (Browse.mounted appwriteOk news25).1).1.

(** ** The rest of the Browse render *)

Module BrowseView.

(** The category buttons, lines 203-214: one button per entry of
    [categories], in that order, highlighted when the category is
    selected. *)
Definition categoryButtons (s : Browse.State) : list (string * bool) :=
  (λ category,
     (category, bool_decide (category ∈ Browse.selectedCategories s)))
    <$> Browse.categories.

(** The error banner, lines 195-199: [error && ...]. *)
Definition errorBanner (s : Browse.State) : option string :=
  if truthy (Browse.error s) then Browse.error s else None.

(** [refreshing={isRefreshing}], line 190. *)
Definition refreshing (s : Browse.State) : bool := Browse.isRefreshing s.

End BrowseView.

(** The category list a persistence call carries. *)
Definition persisted_categories (e : Event) : option (list string) :=
  match e with
  | Call (createpreferences_ _ categories) _ => Some categories
  | Call (savepreferences_ _ _ categories) _ => Some categories
  | _ => None
  end.

(** The requests a fetch sends when it asks for each category in turn. *)
Definition category_requests (categories : list string) : list Event :=
  (λ c, Call (getCategoryNewsFromAPI_ [c]) None) <$> categories.

(** ** More sample collaborators *)

(** A returning user: the backend holds a preference document [d7]. *)
Definition appwriteReturning : Appwrite := {|
  getCurrentUser := Resolved (Some ann);
  createpreferences := createpreferences appwriteOk;
  savepreferences := savepreferences appwriteOk;
  getpreferences := λ _,
    silently (Resolved (Some {|
      doc_id := Some "d7";
      interested_categories := ["Social Events"; "Political Events"] |}));
|}.

(** The create call is rejected. *)
Definition appwriteCreateDown : Appwrite := {|
  getCurrentUser := Resolved (Some ann);
  createpreferences := λ _ _, silently (Rejected "Document limit reached");
  savepreferences := savepreferences appwriteOk;
  getpreferences := getpreferences appwriteOk;
|}.

(** A news service that fails for "Political Events" only. *)
Definition newsPartlyDown : NewsService := {|
  getCategoryNewsFromAPI := λ categories,
    if bool_decide (categories = ["Political Events"])
    then Rejected "Network request failed"
    else getCategoryNewsFromAPI news25 categories;
  getTrendingNewsFromAPI := getTrendingNewsFromAPI news25;
|}.

(** A news service with three trending articles. *)
Definition newsShort : NewsService := {|
  getCategoryNewsFromAPI := getCategoryNewsFromAPI newsNone;
  getTrendingNewsFromAPI := Resolved (Some {[ "general" := articles 3 ]});
|}.

(** * Properties *)

(** ** Running the functions of the Browse screen *)

Section BrowseRuns.
Import Browse.

Lemma showSnackbar_run message s :
  showSnackbar message s
  = (Resolved tt, shownState [message] s, [ShowSnackbar message]).
Proof. reflexivity. Qed.

Lemma shown_run messages s :
  for_of messages tt (λ _ message, showSnackbar message) s
  = (Resolved tt, shownState messages s, ShowSnackbar <$> messages).
Proof.
  revert s. induction messages as [|m rest IH]; intros s; [done|].
  cbn [for_of]. unfold andThen. rewrite showSnackbar_run, IH.
  cbn. do 2 f_equal.
  destruct rest as [|m' rest]; [done|].
  unfold shownState. cbn [last].
  destruct (last (m' :: rest)) eqn:E; [done|].
  by apply last_None in E.
Qed.

Lemma awaitReply_run {A} request (reply : Reply A) s :
  awaitReply request reply s
  = (outcome reply, shownState (shown reply) s,
     (ShowSnackbar <$> shown reply)
       ++ [Call request (rejection_of (outcome reply))]).
Proof. unfold awaitReply, andThen. by rewrite shown_run. Qed.

(** [showSnackbar] writes the two snackbar cells and nothing else. *)
Lemma shownState_frame messages s :
  userData (shownState messages s) = userData s
  ∧ newsData (shownState messages s) = newsData s
  ∧ selectedCategories (shownState messages s) = selectedCategories s
  ∧ documentId (shownState messages s) = documentId s
  ∧ isLoading (shownState messages s) = isLoading s
  ∧ isRefreshing (shownState messages s) = isRefreshing s
  ∧ error (shownState messages s) = error s.
Proof. unfold shownState. by destruct (last messages). Qed.

(** The promise of [saveCategoriesToDatabase] never rejects. *)
Lemma save_settles render appwrite categories s :
  settled (run (saveCategoriesToDatabase render appwrite categories) s)
  = Resolved tt.
Proof.
  unfold run, saveCategoriesToDatabase, try_catch, andThen, await.
  destruct (getCurrentUser appwrite) as [user|r]; [|done].
  destruct (has_id user); [|done].
  destruct (truthy (documentId render)); rewrite awaitReply_run;
    destruct (outcome _) as [response|r]; try done.
  by destruct (response_has_id response).
Qed.

(** What [saveCategoriesToDatabase] leaves alone: everything but the
    snackbar cells and [documentId]. *)
Lemma save_frame render appwrite categories s :
  let s' := state_of
              (run (saveCategoriesToDatabase render appwrite categories) s) in
  userData s' = userData s
  ∧ newsData s' = newsData s
  ∧ selectedCategories s' = selectedCategories s
  ∧ isLoading s' = isLoading s
  ∧ isRefreshing s' = isRefreshing s
  ∧ error s' = error s.
Proof.
  unfold run, saveCategoriesToDatabase, try_catch, andThen, await.
  destruct (getCurrentUser appwrite) as [user|r]; [|done].
  destruct (has_id user); [|done].
  destruct (truthy (documentId render)); rewrite awaitReply_run;
    destruct (outcome _) as [response|r]; cbn;
    try destruct (response_has_id response); cbn;
    by destruct (shownState_frame (shown (createpreferences appwrite
            (default EmptyString (user ≫= user_id)) categories)) s)
         as (?&?&?&?&?&?&?),
       (shownState_frame (shown (savepreferences appwrite
            (default EmptyString (documentId render))
            (default EmptyString (user ≫= user_id)) categories)) s)
         as (?&?&?&?&?&?&?).
Qed.

(** Without a user that has an identifier, the save asks who is signed
    in and stops there. *)
Lemma save_without_user render appwrite categories s user :
  getCurrentUser appwrite = Resolved user →
  has_id user = false →
  run (saveCategoriesToDatabase render appwrite categories) s
  = (Resolved tt, s, [Call getCurrentUser_ None]).
Proof.
  intros Hu Hid.
  unfold run, saveCategoriesToDatabase, try_catch, andThen, await.
  by rewrite Hu, Hid.
Qed.

(** The events of a save, case by case, for a user with an identifier. *)
Lemma save_events_create render appwrite categories s user :
  getCurrentUser appwrite = Resolved user →
  has_id user = true →
  truthy (documentId render) = false →
  ∃ tail,
    events_of (run (saveCategoriesToDatabase render appwrite categories) s)
    = Call getCurrentUser_ None
        :: (ShowSnackbar <$> shown (createpreferences appwrite
              (default EmptyString (user ≫= user_id)) categories))
        ++ Call (createpreferences_
                   (default EmptyString (user ≫= user_id)) categories)
             (rejection_of (outcome (createpreferences appwrite
                (default EmptyString (user ≫= user_id)) categories)))
        :: tail
    ∧ Forall (λ e, is_persistence e = false) tail.
Proof.
  intros Hu Hid Hdoc.
  unfold run, saveCategoriesToDatabase, try_catch, andThen, await.
  rewrite Hu, Hid, Hdoc, awaitReply_run.
  destruct (outcome _) as [response|r]; cbn.
  - destruct (response_has_id response); cbn;
      rewrite <- !app_assoc; cbn; eexists; (split; [reflexivity|]);
      by repeat constructor.
  - rewrite <- !app_assoc; cbn. eexists; (split; [reflexivity|]).
    by repeat constructor.
Qed.

Lemma save_events_update render appwrite categories s user :
  getCurrentUser appwrite = Resolved user →
  has_id user = true →
  truthy (documentId render) = true →
  ∃ tail,
    events_of (run (saveCategoriesToDatabase render appwrite categories) s)
    = Call getCurrentUser_ None
        :: (ShowSnackbar <$> shown (savepreferences appwrite
              (default EmptyString (documentId render))
              (default EmptyString (user ≫= user_id)) categories))
        ++ Call (savepreferences_
                   (default EmptyString (documentId render))
                   (default EmptyString (user ≫= user_id)) categories)
             (rejection_of (outcome (savepreferences appwrite
                (default EmptyString (documentId render))
                (default EmptyString (user ≫= user_id)) categories)))
        :: tail
    ∧ Forall (λ e, is_persistence e = false) tail.
Proof.
  intros Hu Hid Hdoc.
  unfold run, saveCategoriesToDatabase, try_catch, andThen, await.
  rewrite Hu, Hid, Hdoc, awaitReply_run.
  destruct (outcome _) as [response|r]; cbn;
    rewrite <- !app_assoc; cbn; eexists; (split; [reflexivity|]);
    by repeat constructor.
Qed.
End BrowseRuns.

(** ** Counting events *)

Lemma count_app p (e1 e2 : list Event) :
  count p (e1 ++ e2) = count p e1 + count p e2.
Proof. unfold count. by rewrite List.filter_app, length_app. Qed.

Lemma count_cons p e (events : list Event) :
  count p (e :: events) = (if p e then 1 else 0) + count p events.
Proof. unfold count. cbn. by destruct (p e). Qed.

Lemma count_none p (events : list Event) :
  Forall (λ e, p e = false) events → count p events = 0.
Proof.
  induction 1 as [|e rest He _ IH]; [done|].
  by rewrite count_cons, He, IH.
Qed.

Lemma count_snackbars p (messages : list string) :
  (∀ m, p (ShowSnackbar m) = false) →
  count p (ShowSnackbar <$> messages) = 0.
Proof.
  intros Hp. apply count_none, Forall_fmap, Forall_forall. intros m _. apply Hp.
Qed.

(** ** The toggle and the effect that follows it *)

Section BrowseToggle.
Import Browse.

(** The updater either removes the category or appends it; in both cases
    the selection changes. *)
Lemma updatedCategories_member prev category :
  category ∈ prev →
  updatedCategories prev category = filter (λ c, c ≠ category) prev
  ∧ category ∉ updatedCategories prev category.
Proof.
  intros Hin. unfold updatedCategories. rewrite bool_decide_eq_true_2 by done.
  split; [done|]. rewrite list_elem_of_filter. by intros [Hne _].
Qed.

Lemma updatedCategories_fresh prev category :
  category ∉ prev → updatedCategories prev category = prev ++ [category].
Proof.
  intros Hin. unfold updatedCategories. by rewrite bool_decide_eq_false_2.
Qed.

Lemma updatedCategories_changes prev category :
  updatedCategories prev category ≠ prev.
Proof.
  destruct (decide (category ∈ prev)) as [Hin|Hin].
  - destruct (updatedCategories_member prev category Hin) as [_ Hout].
    intros E. by rewrite E in Hout.
  - rewrite updatedCategories_fresh by done. intros E.
    apply (f_equal length) in E. rewrite length_app in E. cbn in E. lia.
Qed.

(** A toggle is the save on the updated list followed by the write of
    that list. *)
Lemma toggleCategory_run render appwrite category s :
  let updated := updatedCategories (selectedCategories s) category in
  let saved := run (saveCategoriesToDatabase render appwrite updated) s in
  run (toggleCategory render appwrite category) s
  = (Resolved tt,
     state_of (run (setSelectedCategories updated) (state_of saved)),
     events_of saved).
Proof.
  intros updated saved.
  pose proof (save_settles render appwrite updated s) as Hok.
  fold saved in Hok.
  unfold run, toggleCategory, andThen, getState, floating. cbn.
  fold updated. change (saveCategoriesToDatabase render appwrite updated s)
    with saved.
  destruct saved as [[o s1] e1]. cbn in Hok. subst o. cbn.
  by rewrite app_nil_r.
Qed.

(** The loop of [fetchNewsData] asks the news service and nothing else,
    and does not touch the cells. *)
Lemma fetch_loop_events newsService categories acc s :
  ∃ o events,
    for_of categories acc (fetchCategory newsService) s = (o, s, events)
    ∧ Forall (λ e, ∃ c r, e = Call (getCategoryNewsFromAPI_ [c]) r) events.
Proof.
  revert acc. induction categories as [|c rest IH]; intros acc.
  - by exists (Resolved acc), [].
  - cbn [for_of]. unfold andThen at 1, fetchCategory at 1.
    unfold andThen at 1, await.
    destruct (getCategoryNewsFromAPI newsService [c]) as [response|r] eqn:E.
    + cbn [rejection_of].
      destruct (response ≫= (λ r, r !! c)) as [articles|]; cbn [pure].
      * destruct (IH (<[c := take 20 articles]> acc)) as (o & ev & -> & Hev).
        exists o, (Call (getCategoryNewsFromAPI_ [c]) None :: ev).
        split; [done|]. constructor; eauto.
      * destruct (IH acc) as (o & ev & -> & Hev).
        exists o, (Call (getCategoryNewsFromAPI_ [c]) None :: ev).
        split; [done|]. constructor; eauto.
    + exists (Rejected r), [Call (getCategoryNewsFromAPI_ [c]) (Some r)].
      split; [done|]. constructor; eauto.
Qed.

(** [fetchNewsData], once its loop has run: either every call resolved
    and the collected object is stored, or the [catch] block ran. *)
Lemma fetchNewsData_run render newsService s :
  let s0 := state_of (run (setIsLoading true ;;; setError None) s) in
  ∃ o events,
    for_of (selectedCategories render) ∅ (fetchCategory newsService) s0
    = (o, s0, events)
    ∧ Forall (λ e, ∃ c r, e = Call (getCategoryNewsFromAPI_ [c]) r) events
    ∧ run (fetchNewsData render newsService) s
      = match o with
        | Resolved categoryData =>
            (Resolved tt,
             state_of (run (setNewsData categoryData ;;; setIsLoading false) s0),
             events)
        | Rejected _ =>
            (Resolved tt,
             state_of (run (setError (Some "Failed to fetch news") ;;;
                            showSnackbar "Error loading news" ;;;
                            setIsLoading false) s0),
             events ++ [ShowSnackbar "Error loading news"])
        end.
Proof.
  intros s0.
  destruct (fetch_loop_events newsService (selectedCategories render) ∅ s0)
    as (o & ev & E & Hev).
  exists o, ev. split; [done|]. split; [done|].
  unfold run, fetchNewsData, try_finally, try_catch, andThen.
  cbn [setIsLoading setError setState].
  match goal with
  | |- context [for_of _ _ _ ?st] => change st with s0
  end.
  rewrite E. destruct o as [categoryData|r]; cbn; by rewrite !app_nil_r.
Qed.

(** The events of the news effect: calls to the news service, and at most
    the snackbar of the [catch] block. *)
Lemma newsEffect_events render newsService s :
  Forall (λ e, (∃ c r, e = Call (getCategoryNewsFromAPI_ [c]) r)
               ∨ e = ShowSnackbar "Error loading news")
    (events_of (run (newsEffect render newsService) s)).
Proof.
  unfold newsEffect.
  destruct (Nat.ltb 0 (length (selectedCategories render))); [|by constructor].
  destruct (fetchNewsData_run render newsService s) as (o & ev & _ & Hev & E).
  unfold run, floating in *. rewrite E.
  destruct o as [categoryData|r]; cbn.
  - eapply Forall_impl; [exact Hev|]. by left.
  - apply Forall_app. split.
    + eapply Forall_impl; [exact Hev|]. by left.
    + apply Forall_singleton. by right.
Qed.

(** The news effect writes [newsData], [isLoading], [error] and the
    snackbar cells; the selection, the document identifier and the user
    are left alone. *)
Lemma newsEffect_frame render newsService s :
  let s' := state_of (run (newsEffect render newsService) s) in
  selectedCategories s' = selectedCategories s
  ∧ documentId s' = documentId s
  ∧ userData s' = userData s
  ∧ isRefreshing s' = isRefreshing s.
Proof.
  unfold newsEffect.
  destruct (Nat.ltb 0 (length (selectedCategories render))); [|done].
  destruct (fetchNewsData_run render newsService s) as (o & ev & _ & _ & E).
  unfold run, floating in *. rewrite E.
  by destruct o as [categoryData|r].
Qed.

Lemma count_newsEffect p render newsService s :
  (∀ c r, p (Call (getCategoryNewsFromAPI_ [c]) r) = false) →
  p (ShowSnackbar "Error loading news") = false →
  count p (events_of (run (newsEffect render newsService) s)) = 0.
Proof.
  intros Hcall Hsnack. apply count_none.
  eapply Forall_impl; [apply newsEffect_events|].
  intros e [(c & r & ->)| ->]; [apply Hcall | apply Hsnack].
Qed.

Lemma newsEffect_no_persistence render newsService s :
  count is_persistence (events_of (run (newsEffect render newsService) s)) = 0.
Proof. by apply count_newsEffect. Qed.

(** Without a selected category the effect does nothing at all. *)
Lemma newsEffect_idle render newsService s :
  selectedCategories render = [] →
  run (newsEffect render newsService) s = (Resolved tt, s, []).
Proof. intros E. unfold run, newsEffect. by rewrite E. Qed.

(** A press on a mounted screen, in terms of the two runs it consists of;
    [scope] is the render [useCallback] remembers. *)
Lemma press_unfold appwrite newsService category f scope :
  toggleCategory_memo f = Some scope →
  let toggled := run (toggleCategory scope appwrite category) (cells f) in
  let fetched :=
    run (newsEffect (state_of toggled) newsService) (state_of toggled) in
  press appwrite newsService category f
  = ({| cells := state_of fetched; toggleCategory_memo := Some scope |},
     events_of toggled ++ events_of fetched).
Proof.
  intros Hmemo. unfold press, toggleCategory_scope, step, render. cbn.
  by rewrite Hmemo.
Qed.

(** [useCallback] keeps handing out the function of the first render. *)
Lemma press_memo appwrite newsService category f scope :
  toggleCategory_memo f = Some scope →
  toggleCategory_memo (press appwrite newsService category f).1 = Some scope.
Proof. intros Hmemo. by rewrite (press_unfold _ _ _ _ _ Hmemo). Qed.

Lemma presses_memo script f scope :
  toggleCategory_memo f = Some scope →
  toggleCategory_memo (presses script f).1 = Some scope.
Proof.
  revert f. induction script as [|[[aw ns] c] rest IH]; intros f Hmemo; [done|].
  cbn [presses].
  pose proof (press_memo aw ns c f scope Hmemo) as H1.
  destruct (press aw ns c f) as [f1 e1].
  specialize (IH f1 H1).
  by destruct (presses rest f1) as [f2 e2].
Qed.

Lemma mounted_memo appwrite newsService :
  toggleCategory_memo (mounted appwrite newsService).1 = Some initial.
Proof. reflexivity. Qed.
End BrowseToggle.


(** ** The preference document *)

(** C1 (the code departs from the claim). A signed-in user without a
    preference document presses "Social Events" and then "Political
    Events". The first create call resolves with document [d1], and [d1] is
    written to the [documentId] cell; the second press nevertheless issues a
    second create call and no save call, because the [toggleCategory] of
    the buttons is the function of the first render, where [documentId] is
    still [null]. *)
Theorem second_toggle_creates_again :
  let start := (Browse.mounted appwriteOk newsNone).1 in
  let first := Browse.press appwriteOk newsNone "Social Events" start in
  let second := Browse.press appwriteOk newsNone "Political Events" first.1 in
  List.filter is_persistence first.2
    = [Call (createpreferences_ "u1" ["Social Events"]) None]
  ∧ Browse.documentId (Browse.cells first.1) = Some "d1"
  ∧ List.filter is_persistence second.2
    = [Call (createpreferences_ "u1" ["Social Events"; "Political Events"])
         None].
Proof. vm_compute. done. Qed.

(** C2 (the code departs from the claim). After any session on a mounted
    Browse screen, a toggle by a user with an identifier issues exactly one
    create call and no save call: the first toggle creates, as the claim
    says, but so does every later one, and the identifier returned by the
    first create is never passed to [savepreferences]. *)
Theorem every_toggle_creates appwrite0 newsService0 script
    appwrite newsService category user :
  getCurrentUser appwrite = Resolved user →
  has_id user = true →
  let f := (Browse.presses script
              (Browse.mounted appwrite0 newsService0).1).1 in
  let events := (Browse.press appwrite newsService category f).2 in
  count is_create events = 1 ∧ count is_save events = 0.
Proof.
  intros Hu Hid f events.
  assert (Browse.toggleCategory_memo f = Some Browse.initial) as Hmemo
    by apply presses_memo, mounted_memo.
  subst events. rewrite (press_unfold _ _ _ _ _ Hmemo). cbn [snd].
  rewrite toggleCategory_run. cbn [events_of snd state_of fst].
  destruct (save_events_create Browse.initial appwrite
              (Browse.updatedCategories
                 (Browse.selectedCategories (Browse.cells f)) category)
              (Browse.cells f) user Hu Hid eq_refl) as (tail & -> & Htail).
  rewrite !count_app, !count_cons, !count_app, !count_cons.
  rewrite !count_snackbars by done.
  rewrite !count_newsEffect by done.
  rewrite (count_none is_create tail), (count_none is_save tail); [done| |].
  - eapply Forall_impl; [exact Htail|]. intros e He.
    unfold is_persistence in He. by apply orb_false_elim in He as [_ ?].
  - eapply Forall_impl; [exact Htail|]. intros e He.
    unfold is_persistence in He. by apply orb_false_elim in He as [? _].
Qed.

Lemma every_toggle_creates_example :
  count is_create
    (Browse.press appwriteOk news25 "Political Events"
       (Browse.presses [(appwriteOk, news25, "Social Events")]
          (Browse.mounted appwriteOk news25).1).1).2 = 1
  ∧ count is_save
      (Browse.press appwriteOk news25 "Political Events"
         (Browse.presses [(appwriteOk, news25, "Social Events")]
            (Browse.mounted appwriteOk news25).1).1).2 = 0.
Proof.
  exact (every_toggle_creates appwriteOk news25
           [(appwriteOk, news25, "Social Events")]
           appwriteOk news25 "Political Events" (Some ann) eq_refl eq_refl).
Defined.

(** ** A press, seen from outside *)

Lemma press_selection appwrite newsService category f scope :
  Browse.toggleCategory_memo f = Some scope →
  Browse.selectedCategories
    (Browse.cells (Browse.press appwrite newsService category f).1)
  = Browse.updatedCategories (Browse.selectedCategories (Browse.cells f))
      category.
Proof.
  intros Hmemo. rewrite (press_unfold _ _ _ _ _ Hmemo). cbn [fst Browse.cells].
  match goal with
  | |- context [run (Browse.newsEffect ?r newsService) ?s] =>
      destruct (newsEffect_frame r newsService s) as (Hsel & _)
  end.
  cbv zeta in Hsel. rewrite Hsel.
  by rewrite toggleCategory_run.
Qed.

Lemma press_persistence appwrite newsService category f scope :
  Browse.toggleCategory_memo f = Some scope →
  count is_persistence (Browse.press appwrite newsService category f).2
  = count is_persistence
      (events_of
         (run (Browse.saveCategoriesToDatabase scope appwrite
                 (Browse.updatedCategories
                    (Browse.selectedCategories (Browse.cells f)) category))
            (Browse.cells f))).
Proof.
  intros Hmemo. rewrite (press_unfold _ _ _ _ _ Hmemo). cbn [snd].
  rewrite count_app, newsEffect_no_persistence, Nat.add_0_r.
  by rewrite toggleCategory_run.
Qed.

Lemma save_persistence render appwrite categories s :
  count is_persistence
    (events_of (run (Browse.saveCategoriesToDatabase render appwrite categories) s))
  = match getCurrentUser appwrite with
    | Resolved user => if has_id user then 1 else 0
    | Rejected _ => 0
    end.
Proof.
  destruct (getCurrentUser appwrite) as [user|r] eqn:Hu.
  - destruct (has_id user) eqn:Hid.
    + destruct (truthy (Browse.documentId render)) eqn:Hdoc.
      * destruct (save_events_update render appwrite categories s
                    user Hu Hid Hdoc) as (tail & -> & Htail).
        rewrite count_cons, count_app, count_cons.
        rewrite count_snackbars by done. by rewrite (count_none _ tail).
      * destruct (save_events_create render appwrite categories s
                    user Hu Hid Hdoc) as (tail & -> & Htail).
        rewrite count_cons, count_app, count_cons.
        rewrite count_snackbars by done. by rewrite (count_none _ tail).
    + by rewrite (save_without_user _ _ _ _ _ Hu Hid).
  - unfold run, Browse.saveCategoriesToDatabase, try_catch, andThen, await.
    by rewrite Hu.
Qed.

(** ** Toggling a category *)

(** C3, as stated, fails: when nobody is signed in, a press updates the
    selection and issues no persistence call at all. *)
Lemma toggle_without_user_persists_nothing :
  let pressed :=
    Browse.press appwriteNoUser newsNone "Social Events"
      (Browse.mounted appwriteNoUser newsNone).1 in
  Browse.selectedCategories (Browse.cells pressed.1) = ["Social Events"]
  ∧ ¬ (count is_persistence pressed.2 = 1).
Proof. vm_compute. split; [done|discriminate]. Qed.

(** C3 (amended). On a mounted Browse screen a press on a category removes
    it from the selection when it is a member and appends it otherwise, and
    the press issues exactly one persistence call (a create or a save) when
    [getCurrentUser] resolves with a user that has an identifier, and none
    otherwise. *)
Theorem toggle_updates_selection_and_persists appwrite newsService category
    f scope :
  Browse.toggleCategory_memo f = Some scope →
  let prev := Browse.selectedCategories (Browse.cells f) in
  let pressed := Browse.press appwrite newsService category f in
  (category ∈ prev →
     Browse.selectedCategories (Browse.cells pressed.1)
     = filter (λ c, c ≠ category) prev
     ∧ category ∉ Browse.selectedCategories (Browse.cells pressed.1))
  ∧ (category ∉ prev →
     Browse.selectedCategories (Browse.cells pressed.1) = prev ++ [category])
  ∧ count is_persistence pressed.2
    = match getCurrentUser appwrite with
      | Resolved user => if has_id user then 1 else 0
      | Rejected _ => 0
      end.
Proof.
  intros Hmemo prev pressed. subst pressed.
  rewrite (press_selection _ _ _ _ _ Hmemo), (press_persistence _ _ _ _ _ Hmemo).
  fold prev. split; [|split].
  - apply updatedCategories_member.
  - apply updatedCategories_fresh.
  - apply save_persistence.
Qed.

Lemma toggle_updates_selection_and_persists_example :
  let pressed := Browse.press appwriteOk news25 "Social Events" browsing in
  ("Social Events" ∈ ["Social Events"] →
     Browse.selectedCategories (Browse.cells pressed.1)
     = filter (λ c, c ≠ "Social Events") ["Social Events"]
     ∧ "Social Events" ∉ Browse.selectedCategories (Browse.cells pressed.1))
  ∧ ("Social Events" ∉ ["Social Events"] →
     Browse.selectedCategories (Browse.cells pressed.1)
     = ["Social Events"] ++ ["Social Events"])
  ∧ count is_persistence pressed.2 = 1.
Proof.
  exact (toggle_updates_selection_and_persists appwriteOk news25
           "Social Events" browsing Browse.initial eq_refl).
Defined.

(** ** Saving without a user, and creating without an identifier *)

(** C9. When [getCurrentUser] resolves without a usable user ([null], or an
    account without identifier), the toggle asks who is signed in and does
    nothing else: no create, no save, no snackbar; the document identifier
    and the snackbar cells keep their values. The selection has been
    replaced by the updated list all the same, which differs from the old
    one. *)
Theorem toggle_without_user_is_silent render appwrite category s user :
  getCurrentUser appwrite = Resolved user →
  has_id user = false →
  let toggled := run (Browse.toggleCategory render appwrite category) s in
  events_of toggled = [Call getCurrentUser_ None]
  ∧ count is_persistence (events_of toggled) = 0
  ∧ count is_snackbar (events_of toggled) = 0
  ∧ Browse.snackbarVisible (state_of toggled) = Browse.snackbarVisible s
  ∧ Browse.snackbarMessage (state_of toggled) = Browse.snackbarMessage s
  ∧ Browse.documentId (state_of toggled) = Browse.documentId s
  ∧ Browse.selectedCategories (state_of toggled)
    = Browse.updatedCategories (Browse.selectedCategories s) category
  ∧ Browse.selectedCategories (state_of toggled) ≠ Browse.selectedCategories s.
Proof.
  intros Hu Hid toggled. subst toggled.
  rewrite toggleCategory_run, (save_without_user _ _ _ _ _ Hu Hid).
  cbn. repeat split; try done.
  apply updatedCategories_changes.
Qed.

Lemma toggle_without_user_is_silent_example :
  let toggled :=
    run (Browse.toggleCategory Browse.initial appwriteNoUser "Social Events")
      (Browse.cells browsing) in
  events_of toggled = [Call getCurrentUser_ None]
  ∧ count is_persistence (events_of toggled) = 0
  ∧ count is_snackbar (events_of toggled) = 0
  ∧ Browse.snackbarVisible (state_of toggled)
    = Browse.snackbarVisible (Browse.cells browsing)
  ∧ Browse.snackbarMessage (state_of toggled)
    = Browse.snackbarMessage (Browse.cells browsing)
  ∧ Browse.documentId (state_of toggled)
    = Browse.documentId (Browse.cells browsing)
  ∧ Browse.selectedCategories (state_of toggled)
    = Browse.updatedCategories
        (Browse.selectedCategories (Browse.cells browsing)) "Social Events"
  ∧ Browse.selectedCategories (state_of toggled)
    ≠ Browse.selectedCategories (Browse.cells browsing).
Proof.
  exact (toggle_without_user_is_silent Browse.initial appwriteNoUser
           "Social Events" (Browse.cells browsing) None eq_refl eq_refl).
Defined.

(** C10. In the create branch, when [createpreferences] resolves with
    nothing or with a response without identifier, the anomaly is written
    to the console, no document identifier is stored, and the snackbar
    "Preferences updated successfully" is shown all the same. *)
Theorem create_without_id_reports_success render appwrite categories s
    user response :
  getCurrentUser appwrite = Resolved user →
  has_id user = true →
  truthy (Browse.documentId render) = false →
  outcome (createpreferences appwrite
             (default EmptyString (user ≫= user_id)) categories)
  = Resolved response →
  response_has_id response = false →
  let saved :=
    run (Browse.saveCategoriesToDatabase render appwrite categories) s in
  (∃ before,
     events_of saved
     = before
         ++ [Call (createpreferences_
                     (default EmptyString (user ≫= user_id)) categories) None;
             ConsoleLog "Error: response from createpreferences is undefined"
               None;
             ShowSnackbar "Preferences updated successfully"])
  ∧ count is_save (events_of saved) = 0
  ∧ Browse.documentId (state_of saved) = Browse.documentId s
  ∧ Browse.snackbarVisible (state_of saved) = true
  ∧ Browse.snackbarMessage (state_of saved)
    = "Preferences updated successfully".
Proof.
  intros Hu Hid Hdoc Hcreate Hresp saved. subst saved.
  unfold run, Browse.saveCategoriesToDatabase, try_catch, andThen, await.
  rewrite Hu, Hid, Hdoc, awaitReply_run, Hcreate, Hresp. cbn -[count].
  destruct (shownState_frame
              (shown (createpreferences appwrite
                        (default EmptyString (user ≫= user_id)) categories)) s)
    as (_ & _ & _ & Hd & _).
  repeat split; try done.
  - eexists (Call getCurrentUser_ None :: (ShowSnackbar <$> _)).
    cbn. by rewrite <- !app_assoc.
  - rewrite !count_cons, !count_app, !count_cons.
    by rewrite count_snackbars.
Qed.

Lemma create_without_id_reports_success_example :
  let saved :=
    run (Browse.saveCategoriesToDatabase Browse.initial appwriteCreateEmpty
           ["Social Events"]) Browse.initial in
  (∃ before,
     events_of saved
     = before
         ++ [Call (createpreferences_ "u1" ["Social Events"]) None;
             ConsoleLog "Error: response from createpreferences is undefined"
               None;
             ShowSnackbar "Preferences updated successfully"])
  ∧ count is_save (events_of saved) = 0
  ∧ Browse.documentId (state_of saved) = None
  ∧ Browse.snackbarVisible (state_of saved) = true
  ∧ Browse.snackbarMessage (state_of saved)
    = "Preferences updated successfully".
Proof.
  exact (create_without_id_reports_success Browse.initial appwriteCreateEmpty
           ["Social Events"] Browse.initial (Some ann) None
           eq_refl eq_refl eq_refl eq_refl eq_refl).
Defined.

(** ** Deselecting the last category *)

Section BrowseDeselect.
Import Browse.

Lemma save_no_news_fetch render appwrite categories s :
  count is_news_fetch
    (events_of (run (saveCategoriesToDatabase render appwrite categories) s))
  = 0.
Proof.
  unfold run, saveCategoriesToDatabase, try_catch, andThen, await.
  destruct (getCurrentUser appwrite) as [user|r]; [|done].
  destruct (has_id user); [|done].
  destruct (truthy (documentId render)); rewrite awaitReply_run;
    destruct (outcome _) as [response|r]; cbn -[count];
    try destruct (response_has_id response); cbn -[count];
    rewrite ?count_cons, ?count_app, ?count_cons;
    by rewrite count_snackbars.
Qed.

Lemma filter_out_only (category : string) (l : list string) :
  (∀ c, c ∈ l → c = category) → filter (λ c, c ≠ category) l = [].
Proof.
  intros Hall. induction l as [|c rest IH]; [done|].
  rewrite filter_cons_False.
  - apply IH. intros c' Hc'. apply Hall. by right.
  - intros Hne. apply Hne, Hall. by left.
Qed.
End BrowseDeselect.

(** C8. On a mounted Browse screen, when the press deselects the only
    category that is selected, the selection becomes empty, no request goes
    to the news service, and [newsData] keeps the mapping it had; the
    articles fetched before are still in the cells, and the news container
    shows the text "Select categories to see news" instead of them. *)
Theorem deselecting_last_category_keeps_news appwrite newsService category
    f scope :
  Browse.toggleCategory_memo f = Some scope →
  category ∈ Browse.selectedCategories (Browse.cells f) →
  (∀ c, c ∈ Browse.selectedCategories (Browse.cells f) → c = category) →
  Browse.isLoading (Browse.cells f) = false →
  let pressed := Browse.press appwrite newsService category f in
  Browse.selectedCategories (Browse.cells pressed.1) = []
  ∧ count is_news_fetch pressed.2 = 0
  ∧ Browse.newsData (Browse.cells pressed.1) = Browse.newsData (Browse.cells f)
  ∧ Browse.newsContainer (Browse.cells pressed.1)
    = Browse.EmptyStateText "Select categories to see news".
Proof.
  intros Hmemo Hin Hall Hload pressed.
  assert (Browse.updatedCategories
            (Browse.selectedCategories (Browse.cells f)) category = []) as Hupd.
  { destruct (updatedCategories_member _ _ Hin) as [-> _].
    by apply filter_out_only. }
  subst pressed. rewrite (press_unfold _ _ _ _ _ Hmemo).
  rewrite toggleCategory_run, Hupd. cbn [state_of events_of fst snd].
  rewrite newsEffect_idle by done. cbn [fst snd Browse.cells].
  rewrite app_nil_r, save_no_news_fetch.
  destruct (save_frame scope appwrite [] (Browse.cells f))
    as (_ & Hnews & _ & Hloading & _).
  unfold Browse.newsContainer. cbn. unfold state_of in *.
  by rewrite Hnews, Hloading, Hload.
Qed.

Lemma deselecting_last_category_keeps_news_example :
  let pressed := Browse.press appwriteOk news25 "Social Events" browsing in
  Browse.selectedCategories (Browse.cells pressed.1) = []
  ∧ count is_news_fetch pressed.2 = 0
  ∧ Browse.newsData (Browse.cells pressed.1)
    = Browse.newsData (Browse.cells browsing)
  ∧ Browse.newsContainer (Browse.cells pressed.1)
    = Browse.EmptyStateText "Select categories to see news".
Proof.
  apply (deselecting_last_category_keeps_news appwriteOk news25
           "Social Events" browsing Browse.initial).
  - reflexivity.
  - vm_compute. by left.
  - vm_compute. intros c Hc. by apply list_elem_of_singleton in Hc.
  - reflexivity.
Defined.

(** The mapping the example leaves behind is not empty: the twenty
    articles of "Social Events" are still stored after the deselection. *)
Lemma deselected_articles_still_stored :
  length <$> (Browse.newsData
                (Browse.cells
                   (Browse.press appwriteOk news25 "Social Events" browsing).1)
              !! "Social Events")
  = Some 20.
Proof. by vm_compute. Qed.

(** ** The entry route *)

(** However the context starts, a resolved user leads to "Home" and a
    rejection to "Login". *)
Lemma entry_route_decided isLoggedIn0 appwrite :
  (∀ account, getCurrentUser appwrite = Resolved (Some account) →
     App.view (App.started isLoggedIn0 appwrite).1 = App.RouteStack "Home")
  ∧ (∀ reason, getCurrentUser appwrite = Rejected reason →
     App.view (App.started isLoggedIn0 appwrite).1 = App.RouteStack "Login").
Proof.
  split; intros x Hx;
    unfold App.started, App.authEffect, run, floating, try_catch, andThen, await;
    by rewrite Hx.
Qed.

(** An empty answer leaves the flag of the context as it was. *)
Lemma entry_route_empty isLoggedIn0 appwrite :
  getCurrentUser appwrite = Resolved None →
  App.view (App.started isLoggedIn0 appwrite).1
  = App.RouteStack (if isLoggedIn0 then "Home" else "Login").
Proof.
  intros Hx.
  unfold App.started, App.authEffect, run, floating, try_catch, andThen, await.
  by rewrite Hx.
Qed.

(** The promise chain of [App] ends in a [catch]: nothing is left
    unhandled, and nothing is written to the console. *)
Lemma authEffect_events isLoggedIn0 appwrite :
  (App.started isLoggedIn0 appwrite).2
  = [Call getCurrentUser_ (rejection_of (getCurrentUser appwrite))].
Proof.
  unfold App.started, App.authEffect, run, floating, try_catch, andThen, await.
  by destruct (getCurrentUser appwrite) as [[account|]|reason].
Qed.

(** C4. Once [getCurrentUser] has settled at startup, the application
    renders the route stack with initial route "Home" when the promise
    resolved with a user, and with initial route "Login" when it rejected
    or resolved with nothing. *)
Theorem entry_route appwrite :
  App.view (App.started App.contextIsLoggedIn appwrite).1
  = App.RouteStack
      match getCurrentUser appwrite with
      | Resolved (Some _) => "Home"
      | Resolved None => "Login"
      | Rejected _ => "Login"
      end.
Proof.
  destruct (entry_route_decided App.contextIsLoggedIn appwrite)
    as [Hhome Hlogin].
  destruct (getCurrentUser appwrite) as [[account|]|reason] eqn:E.
  - by apply Hhome with account.
  - by rewrite entry_route_empty.
  - by apply Hlogin with reason.
Qed.

(** ** The first twenty articles *)

Section Slices.
Import Browse.

(** The loop of [fetchNewsData] when no call is rejected: what it
    collects. *)
Lemma fetch_loop_result newsService categories acc s :
  (∀ c, c ∈ categories →
     rejection_of (getCategoryNewsFromAPI newsService [c]) = None) →
  ∃ acc' events,
    for_of categories acc (fetchCategory newsService) s
    = (Resolved acc', s, events)
    ∧ (∀ c m a, c ∈ categories →
         getCategoryNewsFromAPI newsService [c] = Resolved (Some m) →
         m !! c = Some a → acc' !! c = Some (take 20 a))
    ∧ (∀ c l, acc' !! c = Some l →
         acc !! c = Some l
         ∨ ∃ m a, getCategoryNewsFromAPI newsService [c] = Resolved (Some m)
                  ∧ m !! c = Some a ∧ l = take 20 a)
    ∧ (∀ c, c ∉ categories → acc' !! c = acc !! c).
Proof.
  revert acc. induction categories as [|c0 rest IH]; intros acc Hok.
  - exists acc, []. split; [done|]. split; [|split]; [|by left|done].
    intros c m a Hc. by apply elem_of_nil in Hc.
  - cbn [for_of]. unfold andThen at 1, fetchCategory at 1.
    unfold andThen at 1, await.
    pose proof (Hok c0 (list_elem_of_here _ _)) as Hc0.
    destruct (getCategoryNewsFromAPI newsService [c0]) as [response|r] eqn:E;
      [clear Hc0|done].
    set (acc1 := match response ≫= (λ r, r !! c0) with
                 | Some articles => <[c0 := take 20 articles]> acc
                 | None => acc
                 end).
    destruct (IH acc1) as (acc' & ev & Erun & Hin & Hfrom & Hout).
    { intros c Hc. apply Hok. by right. }
    exists acc', (Call (getCategoryNewsFromAPI_ [c0]) None :: ev).
    split.
    { subst acc1. cbn [rejection_of].
      destruct (response ≫= (λ r, r !! c0)); cbn [pure]; by rewrite Erun. }
    split; [|split].
    + intros c m a Hc Hm Ha.
      destruct (decide (c ∈ rest)) as [Hrest|Hrest]; [by eapply Hin|].
      apply elem_of_cons in Hc as [->|Hc]; [|done].
      rewrite (Hout c0 Hrest). subst acc1.
      rewrite E in Hm. injection Hm as ->. cbn. rewrite Ha.
      apply lookup_insert_eq.
    + intros c l Hl. destruct (Hfrom c l Hl) as [H1|H1]; [|by right].
      subst acc1. destruct response as [m|]; cbn in H1; [|by left].
      destruct (m !! c0) as [a|] eqn:Ea; [|by left].
      destruct (decide (c0 = c)) as [->|Hne].
      * rewrite lookup_insert_eq in H1. injection H1 as <-.
        right. by exists m, a.
      * rewrite lookup_insert_ne in H1 by done. by left.
    + intros c Hc. apply not_elem_of_cons in Hc as [Hne Hrest].
      rewrite (Hout c Hrest). subst acc1.
      destruct (response ≫= (λ r, r !! c0)); [|done].
      by rewrite lookup_insert_ne.
Qed.

(** The loop of Trending's [fetchNewsData] slices every entry. *)
Lemma sliceEntries_lookup (response : gmap string (list NewsArticle)) c :
  Trending.sliceEntries response !! c = take 20 <$> response !! c.
Proof.
  unfold Trending.sliceEntries.
  apply (map_fold_weak_ind
           (λ (acc m : gmap string (list NewsArticle)),
              acc !! c = take 20 <$> m !! c)); [done|].
  intros i x m r Hi IH.
  destruct (decide (i = c)) as [->|Hne].
  - by rewrite !lookup_insert_eq.
  - by rewrite !lookup_insert_ne.
Qed.
End Slices.

(** How the loop of [fetchNewsData] ended tells how the calls settled:
    it ran to its end only if every call resolved, and it rejects with the
    reason of a rejected call. *)
Lemma fetch_loop_outcome newsService categories acc s o events :
  for_of categories acc (Browse.fetchCategory newsService) s = (o, s, events) →
  match o with
  | Resolved _ =>
      ∀ c, c ∈ categories →
        rejection_of (getCategoryNewsFromAPI newsService [c]) = None
  | Rejected reason =>
      ∃ c, c ∈ categories
           ∧ getCategoryNewsFromAPI newsService [c] = Rejected reason
  end.
Proof.
  revert acc events. induction categories as [|c0 rest IH]; intros acc events.
  - cbn. intros [= <- <-] c Hc. by apply elem_of_nil in Hc.
  - cbn [for_of]. unfold andThen at 1, Browse.fetchCategory at 1.
    unfold andThen at 1, await.
    destruct (getCategoryNewsFromAPI newsService [c0]) as [response|r] eqn:E0.
    + cbn [rejection_of].
      destruct (response ≫= (λ r, r !! c0)) as [articles|]; cbn [pure];
        (destruct (for_of rest _ _ s) as [[o' s'] ev'] eqn:E;
         intros [= <- -> <-]; specialize (IH _ _ E);
         destruct o' as [acc'|reason];
         [ intros c Hc; apply elem_of_cons in Hc as [->|Hc];
           [by rewrite E0|by apply IH]
         | destruct IH as (c & Hc & Hrej); exists c; split; [by right|done] ]).
    + intros [= <- <-]. exists c0. split; [by left|done].
Qed.

(** C5. When the news service returns [articles] for a selected category,
    the Browse screen either stores for that category the prefix of
    [articles] of length [min 20 N] and renders that list in its section,
    or, when the call for some selected category was rejected, stores none
    of them and leaves [newsData] as it was. The Trending screen stores and
    renders the prefix of length [min 20 N] of every list of the response.
    A fetch never leaves a list longer than twenty in [newsData]. *)
Theorem first_twenty_articles :
  (∀ newsService (s : Browse.State) category response articles,
     category ∈ Browse.selectedCategories s →
     getCategoryNewsFromAPI newsService [category] = Resolved (Some response) →
     response !! category = Some articles →
     let s' := state_of (run (Browse.fetchNewsData s newsService) s) in
     ((∃ stored sections,
         Browse.newsData s' !! category = Some stored
         ∧ stored `prefix_of` articles
         ∧ length stored = min 20 (length articles)
         ∧ Browse.newsContainer s' = Browse.Articles sections
         ∧ (category, stored) ∈ sections)
      ∧ (∀ c l, Browse.newsData s' !! c = Some l → length l ≤ 20))
     ∨ (Browse.newsData s' = Browse.newsData s
        ∧ ∃ c reason,
            c ∈ Browse.selectedCategories s
            ∧ getCategoryNewsFromAPI newsService [c] = Rejected reason))
  ∧ (∀ newsService (t : Trending.State) category response articles,
       getTrendingNewsFromAPI newsService = Resolved (Some response) →
       response !! category = Some articles →
       let t' := state_of (run (Trending.fetchNewsData newsService) t) in
       (∃ stored,
          Trending.newsData t' !! category = Some stored
          ∧ stored `prefix_of` articles
          ∧ length stored = min 20 (length articles)
          ∧ (category, stored) ∈ Trending.newsContainer t')
       ∧ (∀ c l, Trending.newsData t' !! c = Some l → length l ≤ 20))
  ∧ (∀ newsService (render s : Browse.State),
       (∀ c l, Browse.newsData s !! c = Some l → length l ≤ 20) →
       ∀ c l,
         Browse.newsData
           (state_of (run (Browse.fetchNewsData render newsService) s)) !! c
         = Some l →
         length l ≤ 20).
Proof.
  split; [|split].
  - intros ns s category response articles Hin Hresp Harts s'.
    destruct (fetchNewsData_run s ns s) as (o & ev & Eloop & _ & Erun).
    pose proof (fetch_loop_outcome _ _ _ _ _ _ Eloop) as Hout.
    subst s'. rewrite Erun. destruct o as [collected|reason].
    2:{ right. split; [done|].
        destruct Hout as (c & Hc & Hrej). by exists c, reason. }
    left.
    destruct (fetch_loop_result ns (Browse.selectedCategories s) ∅
                (state_of (run (Browse.setIsLoading true ;;;
                                Browse.setError None) s)) Hout)
      as (acc' & ev' & Eloop' & Hstored & Hfrom & _).
    rewrite Eloop in Eloop'. injection Eloop' as -> ->.
    cbn -[Nat.min take].
    pose proof (Hstored _ _ _ Hin Hresp Harts) as Hcat.
    split.
    + exists (take 20 articles), (map_to_list acc').
      split; [done|]. split; [apply prefix_take|].
      split; [apply length_take|]. split.
      * unfold Browse.newsContainer. cbn.
        destruct (Browse.selectedCategories s) as [|c0 rest] eqn:Esel;
          [by apply elem_of_nil in Hin|].
        cbn. destruct (Nat.eqb_spec (size acc') 0) as [Hsize|_]; [|done].
        apply map_size_empty_inv in Hsize. by rewrite Hsize in Hcat.
      * by apply elem_of_map_to_list.
    + intros c l Hl. destruct (Hfrom c l Hl) as [H0|(m & a & _ & _ & ->)].
      * by rewrite lookup_empty in H0.
      * rewrite length_take. lia.
  - intros ns t category response articles Hresp Harts t'. subst t'.
    unfold run, Trending.fetchNewsData, try_catch, andThen, await.
    rewrite Hresp. cbn -[Nat.min take]. split.
    + exists (take 20 articles).
      split; [by rewrite sliceEntries_lookup, Harts|].
      split; [apply prefix_take|]. split; [apply length_take|].
      unfold Trending.newsContainer. cbn. apply elem_of_map_to_list.
      by rewrite sliceEntries_lookup, Harts.
    + intros c l. rewrite sliceEntries_lookup.
      destruct (response !! c) as [a|]; [|done].
      cbn. intros [= <-]. rewrite length_take. lia.
  - intros ns render s Hold c l.
    destruct (fetchNewsData_run render ns s) as (o & ev & Eloop & _ & Erun).
    pose proof (fetch_loop_outcome _ _ _ _ _ _ Eloop) as Hout.
    rewrite Erun. destruct o as [collected|reason]; [|apply Hold].
    destruct (fetch_loop_result ns (Browse.selectedCategories render) ∅
                (state_of (run (Browse.setIsLoading true ;;;
                                Browse.setError None) s)) Hout)
      as (acc' & ev' & Eloop' & _ & Hfrom & _).
    rewrite Eloop in Eloop'. injection Eloop' as -> ->.
    cbn -[Nat.min take]. intros Hl.
    destruct (Hfrom c l Hl) as [H0|(m & a & _ & _ & ->)].
    + by rewrite lookup_empty in H0.
    + rewrite length_take. lia.
Qed.

Lemma first_twenty_articles_example :
  let s := Browse.cells browsing in
  let s' := state_of (run (Browse.fetchNewsData s news25) s) in
  (∃ stored sections,
     Browse.newsData s' !! "Social Events" = Some stored
     ∧ stored `prefix_of` articles 25
     ∧ length stored = min 20 (length (articles 25))
     ∧ Browse.newsContainer s' = Browse.Articles sections
     ∧ ("Social Events", stored) ∈ sections)
  ∧ (∀ c l, Browse.newsData s' !! c = Some l → length l ≤ 20).
Proof.
  assert ("Social Events" ∈ Browse.selectedCategories (Browse.cells browsing))
    as Hin by (vm_compute; by left).
  assert (({[ "Social Events" := articles 25 ]}
             : gmap string (list NewsArticle)) !! "Social Events"
          = Some (articles 25)) as Harts by (by vm_compute).
  destruct (proj1 first_twenty_articles news25 (Browse.cells browsing)
              "Social Events" {[ "Social Events" := articles 25 ]}
              (articles 25) Hin eq_refl Harts)
    as [Hstored|(_ & c & reason & _ & Hrej)].
  - exact Hstored.
  - discriminate Hrej.
Defined.

(** ** Rejected promises *)

Section Rejections.
Import Browse.

Lemma save_rejection render appwrite categories s :
  let saved := run (saveCategoriesToDatabase render appwrite categories) s in
  ∀ request reason,
    Call request (Some reason) ∈ events_of saved →
    ConsoleLog "Error saving categories:" (Some reason) ∈ events_of saved
    ∧ count is_console (events_of saved) = 1
    ∧ selectedCategories (state_of saved) = selectedCategories s
    ∧ documentId (state_of saved) = documentId s
    ∧ newsData (state_of saved) = newsData s
    ∧ userData (state_of saved) = userData s.
Proof.
  unfold run, saveCategoriesToDatabase, try_catch, andThen, await.
  destruct (getCurrentUser appwrite) as [user|r].
  2:{ cbn -[count]. intros request reason Hin. set_unfold in Hin.
      destruct Hin as [[= _ <-]|[[=]|[]]].
      repeat split; try done. set_solver. }
  destruct (has_id user).
  2:{ cbn. intros request reason Hin. set_unfold in Hin.
      by destruct Hin as [[=]|[]]. }
  destruct (truthy (documentId render)); rewrite awaitReply_run.
  - destruct (savepreferences appwrite _ _ _) as [msgs [response|r]];
      cbn -[count]; intros request reason Hin; set_unfold in Hin.
    + naive_solver.
    + destruct (shownState_frame msgs s) as (?&?&?&?&_).
      assert (reason = r) as -> by naive_solver.
      repeat split; try done; [set_solver|].
      rewrite !count_cons, !count_app, !count_cons.
      by rewrite count_snackbars.
  - destruct (createpreferences appwrite _ _) as [msgs [response|r]];
      cbn -[count]; intros request reason Hin.
    + destruct (response_has_id response); cbn in Hin; set_unfold in Hin;
        naive_solver.
    + set_unfold in Hin.
      destruct (shownState_frame msgs s) as (?&?&?&?&_).
      assert (reason = r) as -> by naive_solver.
      repeat split; try done; [set_solver|].
      rewrite !count_cons, !count_app, !count_cons.
      by rewrite count_snackbars.
Qed.
End Rejections.

Section MoreRejections.
Import Browse.

Lemma load_settles appwrite s :
  settled (run (loadSavedCategories appwrite) s) = Resolved tt.
Proof.
  unfold run, loadSavedCategories, try_catch, andThen, await.
  destruct (getCurrentUser appwrite) as [user|r]; [|done].
  destruct (has_id user); [|done].
  rewrite awaitReply_run.
  by destruct (getpreferences appwrite _) as [msgs [[document|]|r]].
Qed.

Lemma load_rejection appwrite s :
  let loaded := run (loadSavedCategories appwrite) s in
  ∀ request reason,
    Call request (Some reason) ∈ events_of loaded →
    ConsoleLog "Error fetching saved categories:" (Some reason)
      ∈ events_of loaded
    ∧ count is_console (events_of loaded) = 1
    ∧ selectedCategories (state_of loaded) = selectedCategories s
    ∧ documentId (state_of loaded) = documentId s
    ∧ newsData (state_of loaded) = newsData s
    ∧ userData (state_of loaded) = userData s.
Proof.
  unfold run, loadSavedCategories, try_catch, andThen, await.
  destruct (getCurrentUser appwrite) as [user|r].
  2:{ cbn -[count]. intros request reason Hin. set_unfold in Hin.
      destruct Hin as [[= _ <-]|[[=]|[]]].
      repeat split; try done. set_solver. }
  destruct (has_id user).
  2:{ cbn. intros request reason Hin. set_unfold in Hin.
      by destruct Hin as [[=]|[]]. }
  rewrite awaitReply_run.
  destruct (getpreferences appwrite _) as [msgs [[document|]|r]];
    cbn -[count]; intros request reason Hin; set_unfold in Hin.
  - naive_solver.
  - naive_solver.
  - destruct (shownState_frame msgs s) as (?&?&?&?&_).
    assert (reason = r) as -> by naive_solver.
    repeat split; try done; [set_solver|].
    rewrite !count_cons, !count_app, !count_cons.
    by rewrite count_snackbars.
Qed.

(** In the loop of [fetchNewsData] a rejected call is the last one, and
    the loop rejects with its reason. *)
Lemma fetch_loop_rejection newsService categories acc s o events :
  for_of categories acc (fetchCategory newsService) s = (o, s, events) →
  ∀ request reason,
    Call request (Some reason) ∈ events → o = Rejected reason.
Proof.
  revert acc events. induction categories as [|c rest IH]; intros acc events.
  - cbn. intros [= <- <-] request reason Hin. by apply elem_of_nil in Hin.
  - cbn [for_of]. unfold andThen at 1, fetchCategory at 1.
    unfold andThen at 1, await.
    destruct (getCategoryNewsFromAPI newsService [c]) as [response|r].
    + cbn [rejection_of].
      destruct (response ≫= (λ r, r !! c)) as [articles|]; cbn [pure];
        (destruct (for_of rest _ _ s) as [[o' s'] ev'] eqn:E;
         intros [= <- -> <-] request reason Hin;
         apply elem_of_cons in Hin as [[=]|Hin];
         by eapply IH).
    + intros [= <- <-] request reason Hin.
      apply list_elem_of_singleton in Hin. by injection Hin as _ <-.
Qed.

Lemma fetch_rejection render newsService s :
  let fetched := run (fetchNewsData render newsService) s in
  settled fetched = Resolved tt
  ∧ count is_console (events_of fetched) = 0
  ∧ ∀ request reason,
      Call request (Some reason) ∈ events_of fetched →
      error (state_of fetched) = Some "Failed to fetch news"
      ∧ ShowSnackbar "Error loading news" ∈ events_of fetched
      ∧ isLoading (state_of fetched) = false
      ∧ newsData (state_of fetched) = newsData s
      ∧ selectedCategories (state_of fetched) = selectedCategories s
      ∧ documentId (state_of fetched) = documentId s.
Proof.
  destruct (fetchNewsData_run render newsService s)
    as (o & ev & Eloop & Hev & ->).
  assert (count is_console ev = 0) as Hquiet.
  { apply count_none. eapply Forall_impl; [exact Hev|].
    by intros e (c & r & ->). }
  destruct o as [categoryData|r]; cbn -[count].
  - split; [done|]. split; [done|]. intros request reason Hin.
    by pose proof (fetch_loop_rejection _ _ _ _ _ _ Eloop _ _ Hin).
  - split; [done|]. split; [by rewrite count_app, Hquiet|].
    intros request reason _. repeat split; try done. set_solver.
Qed.
End MoreRejections.

Lemma trending_fetch_rejection newsService t :
  let fetched := run (Trending.fetchNewsData newsService) t in
  settled fetched = Resolved tt
  ∧ ∀ request reason,
      Call request (Some reason) ∈ events_of fetched →
      ConsoleLog "Failed to fetch news:" (Some reason) ∈ events_of fetched
      ∧ state_of fetched = t.
Proof.
  unfold run, Trending.fetchNewsData, try_catch, andThen, await.
  destruct (getTrendingNewsFromAPI newsService) as [response|r]; cbn.
  - split; [done|]. intros request reason Hin. set_unfold in Hin.
    by destruct Hin as [[=]|[]].
  - split; [done|]. intros request reason Hin. set_unfold in Hin.
    destruct Hin as [[= _ <-]|[[=]|[]]]. split; [set_solver|done].
Qed.

Lemma app_rejection isLoggedIn0 appwrite reason :
  getCurrentUser appwrite = Rejected reason →
  App.started isLoggedIn0 appwrite
  = ({| App.isLoading := false; App.isLoggedIn := false |},
     [Call getCurrentUser_ (Some reason)]).
Proof.
  intros E.
  unfold App.started, App.authEffect, run, floating, try_catch, andThen, await.
  by rewrite E.
Qed.

(** The promise chains of the user effects have no [catch]: a rejected
    [getCurrentUser] is left unhandled there, with the cells untouched. *)
Lemma userEffect_rejection_unhandled appwrite reason s t :
  getCurrentUser appwrite = Rejected reason →
  run (Browse.userEffect appwrite) s
  = (Resolved tt, s,
     [Call getCurrentUser_ (Some reason); UnhandledRejection reason])
  ∧ run (Trending.userEffect appwrite) t
    = (Resolved tt, t,
       [Call getCurrentUser_ (Some reason); UnhandledRejection reason]).
Proof.
  intros E.
  unfold run, Browse.userEffect, Trending.userEffect, floating, andThen, await.
  by rewrite E.
Qed.

(** C6, as stated, fails. A pull-to-refresh while the backend is down
    leaves the loaded selection and document identifier in place instead of
    the empty defaults; and a press whose news fetch is rejected writes
    nothing to the console and keeps the articles fetched before. *)
Lemma rejection_neither_resets_nor_always_logs :
  let refreshed := run (Browse.onRefresh appwriteDown) (Browse.cells browsing) in
  let pressed := Browse.press appwriteOk newsDown "Political Events" browsing in
  (count is_rejected_call (events_of refreshed) = 1
   ∧ ¬ (Browse.selectedCategories (state_of refreshed) = []
        ∧ Browse.documentId (state_of refreshed) = None))
  ∧ (count is_rejected_call pressed.2 = 1
     ∧ ¬ (0 < count is_console pressed.2)
     ∧ ¬ (Browse.newsData (Browse.cells pressed.1) = ∅)).
Proof.
  split; [split|split; [|split]].
  - by vm_compute.
  - vm_compute. by intros [[=] _].
  - by vm_compute.
  - vm_compute. lia.
  - intros E. apply (f_equal (λ m, length <$> m !! "Social Events")) in E.
    vm_compute in E. discriminate.
Qed.

(** C6 (amended). A rejected collaborator promise awaited in
    [saveCategoriesToDatabase], in [loadSavedCategories] or in Trending's
    [fetchNewsData] is caught in that function: the promise of the function
    resolves, the rejection is logged to the console, and the selection, the
    document identifier, the news mapping and the user are left as they
    were before the call. In Browse's [fetchNewsData] the rejection is
    caught as well; nothing is logged, the error cell is set, the snackbar
    "Error loading news" is shown and [newsData] is left as it was. In
    [App] a rejected [getCurrentUser] is caught and ends with [isLoading]
    and [isLoggedIn] both false. *)
Theorem rejections_are_caught :
  (∀ render appwrite categories s,
     let saved :=
       run (Browse.saveCategoriesToDatabase render appwrite categories) s in
     settled saved = Resolved tt
     ∧ ∀ request reason,
         Call request (Some reason) ∈ events_of saved →
         ConsoleLog "Error saving categories:" (Some reason) ∈ events_of saved
         ∧ Browse.selectedCategories (state_of saved)
           = Browse.selectedCategories s
         ∧ Browse.documentId (state_of saved) = Browse.documentId s
         ∧ Browse.newsData (state_of saved) = Browse.newsData s
         ∧ Browse.userData (state_of saved) = Browse.userData s)
  ∧ (∀ appwrite s,
       let loaded := run (Browse.loadSavedCategories appwrite) s in
       settled loaded = Resolved tt
       ∧ ∀ request reason,
           Call request (Some reason) ∈ events_of loaded →
           ConsoleLog "Error fetching saved categories:" (Some reason)
             ∈ events_of loaded
           ∧ Browse.selectedCategories (state_of loaded)
             = Browse.selectedCategories s
           ∧ Browse.documentId (state_of loaded) = Browse.documentId s
           ∧ Browse.newsData (state_of loaded) = Browse.newsData s
           ∧ Browse.userData (state_of loaded) = Browse.userData s)
  ∧ (∀ newsService t,
       let fetched := run (Trending.fetchNewsData newsService) t in
       settled fetched = Resolved tt
       ∧ ∀ request reason,
           Call request (Some reason) ∈ events_of fetched →
           ConsoleLog "Failed to fetch news:" (Some reason) ∈ events_of fetched
           ∧ state_of fetched = t)
  ∧ (∀ render newsService s,
       let fetched := run (Browse.fetchNewsData render newsService) s in
       settled fetched = Resolved tt
       ∧ count is_console (events_of fetched) = 0
       ∧ ∀ request reason,
           Call request (Some reason) ∈ events_of fetched →
           Browse.error (state_of fetched) = Some "Failed to fetch news"
           ∧ ShowSnackbar "Error loading news" ∈ events_of fetched
           ∧ Browse.newsData (state_of fetched) = Browse.newsData s)
  ∧ (∀ isLoggedIn0 appwrite reason,
       getCurrentUser appwrite = Rejected reason →
       App.started isLoggedIn0 appwrite
       = ({| App.isLoading := false; App.isLoggedIn := false |},
          [Call getCurrentUser_ (Some reason)])).
Proof.
  split; [|split; [|split; [|split]]].
  - intros render appwrite categories s saved. split; [apply save_settles|].
    intros request reason Hin.
    destruct (save_rejection render appwrite categories s request reason Hin)
      as (?&_&?&?&?&?). done.
  - intros appwrite s loaded. split; [apply load_settles|].
    intros request reason Hin.
    destruct (load_rejection appwrite s request reason Hin)
      as (?&_&?&?&?&?). done.
  - apply trending_fetch_rejection.
  - intros render newsService s fetched.
    destruct (fetch_rejection render newsService s) as (Hok & Hquiet & Hrej).
    split; [done|]. split; [done|]. intros request reason Hin.
    destruct (Hrej request reason Hin) as (?&?&_&?&_). done.
  - apply app_rejection.
Qed.

Lemma rejections_are_caught_example :
  let loaded :=
    run (Browse.loadSavedCategories appwriteDown) (Browse.cells browsing) in
  ConsoleLog "Error fetching saved categories:" (Some "Network request failed")
    ∈ events_of loaded
  ∧ Browse.selectedCategories (state_of loaded)
    = Browse.selectedCategories (Browse.cells browsing)
  ∧ Browse.documentId (state_of loaded)
    = Browse.documentId (Browse.cells browsing)
  ∧ Browse.newsData (state_of loaded) = Browse.newsData (Browse.cells browsing)
  ∧ Browse.userData (state_of loaded) = Browse.userData (Browse.cells browsing).
Proof.
  refine (proj2 (proj1 (proj2 rejections_are_caught) appwriteDown
                   (Browse.cells browsing))
            getCurrentUser_ "Network request failed" _).
  vm_compute. by left.
Defined.

(** ** Rejection against absence *)

(** C7, as stated, fails. On a screen that holds a selection and a
    document identifier, a refresh whose [getpreferences] is rejected keeps
    both, whereas a refresh whose [getpreferences] resolves with no document
    clears both: the two outcomes can be told apart. *)
Lemma rejected_preferences_differ_from_absent :
  let s := Browse.cells browsing in
  let rejected := state_of (run (Browse.onRefresh appwritePrefsDown) s) in
  let absent := state_of (run (Browse.onRefresh appwriteOk) s) in
  getCurrentUser appwritePrefsDown = getCurrentUser appwriteOk
  ∧ outcome (getpreferences appwritePrefsDown "u1")
    = Rejected "Network request failed"
  ∧ outcome (getpreferences appwriteOk "u1") = Resolved None
  ∧ Browse.selectedCategories rejected = ["Social Events"]
  ∧ Browse.documentId rejected = Some "d1"
  ∧ Browse.selectedCategories absent = []
  ∧ Browse.documentId absent = None
  ∧ rejected ≠ absent.
Proof.
  repeat split; try by vm_compute.
Qed.

(** C7 (amended). A rejection of [getCurrentUser] leaves the state as a
    resolve with no user does: in [App], whose context starts not logged
    in, both end on the "Login" route with the same state, and in
    [loadSavedCategories] and [saveCategoriesToDatabase] both leave the
    cells untouched. A rejection of [getpreferences] leaves the selection
    and the document identifier as they were, whereas a resolve with no
    document sets them to the empty selection and no identifier; the two
    states are equal when the screen holds no selection and no identifier
    yet, as on the first load. *)
Theorem rejection_collapses_into_absence :
  (∀ rejecting empty reason,
     getCurrentUser rejecting = Rejected reason →
     getCurrentUser empty = Resolved None →
     (App.started App.contextIsLoggedIn rejecting).1
     = (App.started App.contextIsLoggedIn empty).1
     ∧ App.view (App.started App.contextIsLoggedIn rejecting).1
       = App.RouteStack "Login"
     ∧ (∀ s, state_of (run (Browse.loadSavedCategories rejecting) s) = s
             ∧ state_of (run (Browse.loadSavedCategories empty) s) = s)
     ∧ (∀ render categories s,
          state_of (run (Browse.saveCategoriesToDatabase render rejecting
                           categories) s) = s
          ∧ state_of (run (Browse.saveCategoriesToDatabase render empty
                             categories) s) = s))
  ∧ (∀ rejecting empty user shown reason s,
       getCurrentUser rejecting = Resolved user →
       getCurrentUser empty = Resolved user →
       has_id user = true →
       getpreferences rejecting (default EmptyString (user ≫= user_id))
       = {| shown := shown; outcome := Rejected reason |} →
       getpreferences empty (default EmptyString (user ≫= user_id))
       = {| shown := shown; outcome := Resolved None |} →
       let rejected := state_of (run (Browse.loadSavedCategories rejecting) s) in
       let absent := state_of (run (Browse.loadSavedCategories empty) s) in
       Browse.selectedCategories rejected = Browse.selectedCategories s
       ∧ Browse.documentId rejected = Browse.documentId s
       ∧ Browse.selectedCategories absent = []
       ∧ Browse.documentId absent = None
       ∧ (Browse.selectedCategories s = [] → Browse.documentId s = None →
          rejected = absent)).
Proof.
  split.
  - intros rejecting empty reason Hrej Hempty.
    split; [|split; [|split]].
    + unfold App.started, App.authEffect, run, floating, try_catch, andThen,
        await.
      by rewrite Hrej, Hempty.
    + by apply (entry_route_decided App.contextIsLoggedIn rejecting) with reason.
    + intros s.
      unfold run, Browse.loadSavedCategories, try_catch, andThen, await.
      by rewrite Hrej, Hempty.
    + intros render categories s.
      unfold run, Browse.saveCategoriesToDatabase, try_catch, andThen, await.
      by rewrite Hrej, Hempty.
  - intros rejecting empty user shown reason s Hu1 Hu2 Hid Hp1 Hp2
      rejected absent.
    subst rejected absent.
    unfold run, Browse.loadSavedCategories, try_catch, andThen, await.
    rewrite Hu1, Hu2, Hid, !awaitReply_run, Hp1, Hp2. cbn.
    destruct (shownState_frame shown s) as (?&?&Hsel&Hdoc&?&?&?).
    repeat split; try done.
    intros Hs Hd. rewrite Hs in Hsel. rewrite Hd in Hdoc.
    destruct (Browse.shownState shown s). cbn in *. by subst.
Qed.

Lemma rejection_collapses_into_absence_example :
  let rejected :=
    state_of (run (Browse.loadSavedCategories appwritePrefsDown)
                Browse.initial) in
  let absent :=
    state_of (run (Browse.loadSavedCategories appwriteOk) Browse.initial) in
  Browse.selectedCategories rejected = []
  ∧ Browse.documentId rejected = None
  ∧ Browse.selectedCategories absent = []
  ∧ Browse.documentId absent = None
  ∧ (Browse.selectedCategories Browse.initial = [] →
     Browse.documentId Browse.initial = None →
     rejected = absent).
Proof.
  exact (proj2 rejection_collapses_into_absence appwritePrefsDown appwriteOk
           (Some ann) [] "Network request failed" Browse.initial
           eq_refl eq_refl eq_refl eq_refl eq_refl).
Defined.


(** * Further properties of the code *)

(** ** The selection under toggles *)

Lemma updatedCategories_elem_of prev category c :
  c ∈ Browse.updatedCategories prev category
  ↔ (c ≠ category ∧ c ∈ prev) ∨ (c = category ∧ category ∉ prev).
Proof.
  destruct (decide (category ∈ prev)) as [Hin|Hin].
  - destruct (updatedCategories_member prev category Hin) as [-> _].
    rewrite list_elem_of_filter. naive_solver.
  - rewrite updatedCategories_fresh by done.
    rewrite elem_of_app, list_elem_of_singleton.
    split; [|naive_solver].
    intros [Hc| ->]; [left|by right]. split; [|done]. by intros ->.
Qed.

Lemma updatedCategories_NoDup prev category :
  NoDup prev → NoDup (Browse.updatedCategories prev category).
Proof.
  intros Hnd. destruct (decide (category ∈ prev)) as [Hin|Hin].
  - destruct (updatedCategories_member prev category Hin) as [-> _].
    by apply NoDup_filter.
  - rewrite updatedCategories_fresh by done.
    apply NoDup_app. split; [done|]. split; [|apply NoDup_singleton].
    intros c Hc Hc'. apply list_elem_of_singleton in Hc'. by subst.
Qed.

Lemma filter_out_absent (category : string) (l : list string) :
  category ∉ l → filter (λ c, c ≠ category) l = l.
Proof.
  intros Hout. induction l as [|c rest IH]; [done|].
  apply not_elem_of_cons in Hout as [Hne Hrest].
  rewrite filter_cons_True by done. by rewrite IH.
Qed.

(** X1. A press on a category of a mounted Browse screen flips whether that
    category is selected, and changes the membership of no other
    category. *)
Theorem press_flips_one_membership appwrite newsService category f scope c :
  Browse.toggleCategory_memo f = Some scope →
  let before := Browse.selectedCategories (Browse.cells f) in
  let after :=
    Browse.selectedCategories
      (Browse.cells (Browse.press appwrite newsService category f).1) in
  (c ≠ category → (c ∈ after ↔ c ∈ before))
  ∧ (category ∈ after ↔ category ∉ before).
Proof.
  intros Hmemo before after. subst after.
  rewrite (press_selection _ _ _ _ _ Hmemo). fold before.
  split.
  - intros Hne. rewrite updatedCategories_elem_of. naive_solver.
  - rewrite updatedCategories_elem_of. naive_solver.
Qed.

Lemma press_flips_one_membership_example :
  let before := Browse.selectedCategories (Browse.cells browsing) in
  let after :=
    Browse.selectedCategories
      (Browse.cells
         (Browse.press appwriteOk news25 "Political Events" browsing).1) in
  ("Social Events" ≠ "Political Events" →
     ("Social Events" ∈ after ↔ "Social Events" ∈ before))
  ∧ ("Political Events" ∈ after ↔ "Political Events" ∉ before).
Proof.
  exact (press_flips_one_membership appwriteOk news25 "Political Events"
           browsing Browse.initial "Social Events" eq_refl).
Defined.

(** X2. A selection without duplicates stays without duplicates under any
    sequence of presses on a mounted Browse screen. *)
Theorem selection_stays_duplicate_free script f scope :
  Browse.toggleCategory_memo f = Some scope →
  NoDup (Browse.selectedCategories (Browse.cells f)) →
  NoDup (Browse.selectedCategories (Browse.cells (Browse.presses script f).1)).
Proof.
  revert f. induction script as [|[[aw ns] c] rest IH]; intros f Hmemo Hnd;
    [done|].
  cbn [Browse.presses].
  pose proof (press_memo aw ns c f scope Hmemo) as Hmemo1.
  pose proof (press_selection aw ns c f scope Hmemo) as Hsel.
  destruct (Browse.press aw ns c f) as [f1 e1]. cbn [fst] in *.
  assert (NoDup (Browse.selectedCategories (Browse.cells f1))) as Hnd1.
  { rewrite Hsel. by apply updatedCategories_NoDup. }
  specialize (IH f1 Hmemo1 Hnd1).
  by destruct (Browse.presses rest f1) as [f2 e2].
Qed.

Lemma selection_stays_duplicate_free_example :
  NoDup (Browse.selectedCategories
           (Browse.cells
              (Browse.presses
                 [(appwriteOk, news25, "Political Events");
                  (appwriteOk, news25, "Social Events");
                  (appwriteOk, news25, "Social Events")] browsing).1)).
Proof.
  apply (selection_stays_duplicate_free
           [(appwriteOk, news25, "Political Events");
            (appwriteOk, news25, "Social Events");
            (appwriteOk, news25, "Social Events")] browsing Browse.initial).
  - reflexivity.
  - vm_compute. apply NoDup_singleton.
Defined.

(** X3. Pressing a category that is not selected twice in a row gives back
    the selection as it was, in the same order, whatever the collaborators
    answer in between. *)
Theorem pressing_twice_restores_selection
    appwrite1 newsService1 appwrite2 newsService2 category f scope :
  Browse.toggleCategory_memo f = Some scope →
  category ∉ Browse.selectedCategories (Browse.cells f) →
  Browse.selectedCategories
    (Browse.cells
       (Browse.press appwrite2 newsService2 category
          (Browse.press appwrite1 newsService1 category f).1).1)
  = Browse.selectedCategories (Browse.cells f).
Proof.
  intros Hmemo Hout.
  pose proof (press_memo appwrite1 newsService1 category f scope Hmemo) as Hm1.
  rewrite (press_selection _ _ _ _ _ Hm1), (press_selection _ _ _ _ _ Hmemo).
  rewrite (updatedCategories_fresh _ _ Hout).
  assert (category ∈ Browse.selectedCategories (Browse.cells f) ++ [category])
    as Hin by (apply elem_of_app; right; by apply list_elem_of_singleton).
  destruct (updatedCategories_member _ _ Hin) as [-> _].
  rewrite filter_app, (filter_out_absent _ _ Hout).
  rewrite filter_cons_False, filter_nil by (intros Hne; by apply Hne).
  apply app_nil_r.
Qed.

Lemma pressing_twice_restores_selection_example :
  Browse.selectedCategories
    (Browse.cells
       (Browse.press appwriteNoUser newsDown "Political Events"
          (Browse.press appwriteOk news25 "Political Events" browsing).1).1)
  = Browse.selectedCategories (Browse.cells browsing).
Proof.
  apply (pressing_twice_restores_selection appwriteOk news25
           appwriteNoUser newsDown "Political Events" browsing Browse.initial).
  - reflexivity.
  - vm_compute. intros Hin. apply list_elem_of_singleton in Hin. discriminate.
Defined.

(** A list without duplicates is its other elements followed by [category]
    exactly when [category] is its last element. *)
Lemma filter_snoc_last (category : string) (l : list string) :
  NoDup l →
  filter (λ c, c ≠ category) l ++ [category] = l ↔ last l = Some category.
Proof.
  intros Hnd. split.
  - intros <-. apply last_snoc.
  - intros Hlast. apply last_Some in Hlast as [init ->].
    apply NoDup_app in Hnd as (_ & Hdisj & _).
    rewrite filter_app, filter_cons_False, filter_nil
      by (intros Hne; by apply Hne).
    rewrite app_nil_r. f_equal. apply filter_out_absent.
    intros Hin. apply (Hdisj category Hin). by left.
Qed.

(** X4. Pressing a selected category twice in a row leaves the other
    categories in their old order, followed by the pressed category. For a
    selection without duplicates that is the list as it was exactly when
    the pressed category was its last element; otherwise the category has
    moved to the end. *)
Theorem pressing_twice_moves_selected_to_the_end
    appwrite1 newsService1 appwrite2 newsService2 category f scope :
  Browse.toggleCategory_memo f = Some scope →
  category ∈ Browse.selectedCategories (Browse.cells f) →
  let before := Browse.selectedCategories (Browse.cells f) in
  let after :=
    Browse.selectedCategories
      (Browse.cells
         (Browse.press appwrite2 newsService2 category
            (Browse.press appwrite1 newsService1 category f).1).1) in
  after = filter (λ c, c ≠ category) before ++ [category]
  ∧ (NoDup before → (after = before ↔ last before = Some category)).
Proof.
  intros Hmemo Hin before after.
  assert (after = filter (λ c, c ≠ category) before ++ [category]) as Hafter.
  { subst after before.
    pose proof (press_memo appwrite1 newsService1 category f scope Hmemo)
      as Hm1.
    rewrite (press_selection _ _ _ _ _ Hm1), (press_selection _ _ _ _ _ Hmemo).
    destruct (updatedCategories_member _ _ Hin) as [-> Hout].
    by rewrite (updatedCategories_fresh _ _ Hout). }
  split; [done|]. intros Hnd. rewrite Hafter. by apply filter_snoc_last.
Qed.

Lemma pressing_twice_moves_selected_to_the_end_example :
  let f := (Browse.press appwriteOk news25 "Political Events" browsing).1 in
  let before := Browse.selectedCategories (Browse.cells f) in
  let after :=
    Browse.selectedCategories
      (Browse.cells
         (Browse.press appwriteOk news25 "Social Events"
            (Browse.press appwriteOk news25 "Social Events" f).1).1) in
  after = filter (λ c, c ≠ "Social Events") before ++ ["Social Events"]
  ∧ (NoDup before → (after = before ↔ last before = Some "Social Events")).
Proof.
  apply (pressing_twice_moves_selected_to_the_end appwriteOk news25
           appwriteOk news25 "Social Events"
           (Browse.press appwriteOk news25 "Political Events" browsing).1
           Browse.initial).
  - reflexivity.
  - vm_compute. by left.
Defined.

(** ** The category buttons *)

(** X5. A press on a category of a mounted Browse screen inverts the
    highlight of that category's button and leaves the other eight buttons
    as they were. *)
Theorem press_flips_one_button appwrite newsService category f scope :
  Browse.toggleCategory_memo f = Some scope →
  BrowseView.categoryButtons
    (Browse.cells (Browse.press appwrite newsService category f).1)
  = (λ button : string * bool,
       if bool_decide (button.1 = category)
       then (button.1, negb button.2)
       else button)
      <$> BrowseView.categoryButtons (Browse.cells f).
Proof.
  intros Hmemo. unfold BrowseView.categoryButtons.
  rewrite (press_selection _ _ _ _ _ Hmemo).
  rewrite <- list_fmap_compose. apply list_fmap_ext.
  intros _ c _. cbn.
  pose proof (updatedCategories_elem_of
                (Browse.selectedCategories (Browse.cells f)) category c) as Hc.
  destruct (decide (c = category)) as [->|Hne].
  - rewrite (bool_decide_eq_true_2 (category = category)) by done. f_equal.
    destruct (decide (category ∈ Browse.selectedCategories (Browse.cells f)))
      as [Hin|Hin].
    + rewrite (bool_decide_eq_true_2 _ Hin).
      apply bool_decide_eq_false_2. rewrite Hc. naive_solver.
    + rewrite (bool_decide_eq_false_2 _ Hin).
      apply bool_decide_eq_true_2. rewrite Hc. naive_solver.
  - rewrite (bool_decide_eq_false_2 (c = category)) by done. f_equal.
    apply bool_decide_ext. rewrite Hc. naive_solver.
Qed.

Lemma press_flips_one_button_example :
  BrowseView.categoryButtons
    (Browse.cells (Browse.press appwriteOk news25 "Ideas Festivals" browsing).1)
  = (λ button : string * bool,
       if bool_decide (button.1 = "Ideas Festivals")
       then (button.1, negb button.2)
       else button)
      <$> BrowseView.categoryButtons (Browse.cells browsing).
Proof.
  exact (press_flips_one_button appwriteOk news25 "Ideas Festivals" browsing
           Browse.initial eq_refl).
Defined.

(** ** What a press persists *)

(** The events of a save for a user with an identifier, with the category
    list of its one persistence call. *)
Lemma save_persisted_categories render appwrite categories s user :
  getCurrentUser appwrite = Resolved user →
  has_id user = true →
  List.filter is_persistence
    (events_of (run (Browse.saveCategoriesToDatabase render appwrite
                       categories) s))
  = if truthy (Browse.documentId render)
    then [Call (savepreferences_
                  (default EmptyString (Browse.documentId render))
                  (default EmptyString (user ≫= user_id)) categories)
            (rejection_of (outcome (savepreferences appwrite
               (default EmptyString (Browse.documentId render))
               (default EmptyString (user ≫= user_id)) categories)))]
    else [Call (createpreferences_
                  (default EmptyString (user ≫= user_id)) categories)
            (rejection_of (outcome (createpreferences appwrite
               (default EmptyString (user ≫= user_id)) categories)))].
Proof.
  intros Hu Hid.
  assert (∀ messages : list string,
            List.filter is_persistence (ShowSnackbar <$> messages) = [])
    as Hsnack by (induction messages; [done|by cbn]).
  assert (∀ tail, Forall (λ e, is_persistence e = false) tail →
            List.filter is_persistence tail = []) as Htail.
  { induction 1 as [|e rest He _ IH]; [done|]. cbn. by rewrite He. }
  destruct (truthy (Browse.documentId render)) eqn:Hdoc.
  - destruct (save_events_update render appwrite categories s user Hu Hid Hdoc)
      as (tail & -> & Hnone).
    cbn. rewrite List.filter_app, Hsnack. cbn. by rewrite (Htail _ Hnone).
  - destruct (save_events_create render appwrite categories s user Hu Hid Hdoc)
      as (tail & -> & Hnone).
    cbn. rewrite List.filter_app, Hsnack. cbn. by rewrite (Htail _ Hnone).
Qed.

Lemma newsEffect_persists_nothing render newsService s :
  List.filter is_persistence
    (events_of (run (Browse.newsEffect render newsService) s)) = [].
Proof.
  pose proof (newsEffect_events render newsService s) as Hev.
  induction Hev as [|e rest He _ IH]; [done|].
  cbn. by destruct He as [(c & r & ->)| ->].
Qed.

Lemma press_persistence_events appwrite newsService category f scope :
  Browse.toggleCategory_memo f = Some scope →
  List.filter is_persistence (Browse.press appwrite newsService category f).2
  = List.filter is_persistence
      (events_of
         (run (Browse.saveCategoriesToDatabase scope appwrite
                 (Browse.updatedCategories
                    (Browse.selectedCategories (Browse.cells f)) category))
            (Browse.cells f))).
Proof.
  intros Hmemo. rewrite (press_unfold _ _ _ _ _ Hmemo). cbn [snd].
  rewrite List.filter_app, newsEffect_persists_nothing, app_nil_r.
  by rewrite toggleCategory_run.
Qed.

(** X6. On a mounted Browse screen, when the user has an identifier, the one
    persistence call of a press carries exactly the selection the screen
    holds after the press. *)
Theorem press_persists_the_new_selection appwrite newsService category f
    scope user :
  Browse.toggleCategory_memo f = Some scope →
  getCurrentUser appwrite = Resolved user →
  has_id user = true →
  let pressed := Browse.press appwrite newsService category f in
  persisted_categories <$> List.filter is_persistence pressed.2
  = [Some (Browse.selectedCategories (Browse.cells pressed.1))].
Proof.
  intros Hmemo Hu Hid pressed. subst pressed.
  rewrite (press_persistence_events _ _ _ _ _ Hmemo).
  rewrite (press_selection _ _ _ _ _ Hmemo).
  rewrite (save_persisted_categories _ _ _ _ _ Hu Hid).
  by destruct (truthy (Browse.documentId scope)).
Qed.

Lemma press_persists_the_new_selection_example :
  let pressed := Browse.press appwriteOk news25 "Political Events" browsing in
  persisted_categories <$> List.filter is_persistence pressed.2
  = [Some (Browse.selectedCategories (Browse.cells pressed.1))].
Proof.
  exact (press_persists_the_new_selection appwriteOk news25 "Political Events"
           browsing Browse.initial (Some ann) eq_refl eq_refl eq_refl).
Defined.

(** ** The outcome of a save *)

(** X7. For a user with an identifier, the last thing a save does is show
    "Preferences updated successfully" when its create or save call
    resolved, and write "Error saving categories:" with the reason to the
    console when that call was rejected. *)
Theorem save_reports_success_iff_persisted render appwrite categories s user :
  getCurrentUser appwrite = Resolved user →
  has_id user = true →
  let userId := default EmptyString (user ≫= user_id) in
  let settledAs :=
    if truthy (Browse.documentId render)
    then rejection_of (outcome (savepreferences appwrite
           (default EmptyString (Browse.documentId render)) userId categories))
    else rejection_of (outcome (createpreferences appwrite userId categories))
  in
  last (events_of (run (Browse.saveCategoriesToDatabase render appwrite
                          categories) s))
  = Some match settledAs with
         | None => ShowSnackbar "Preferences updated successfully"
         | Some reason => ConsoleLog "Error saving categories:" (Some reason)
         end.
Proof.
  intros Hu Hid userId settledAs. subst settledAs userId.
  unfold run, Browse.saveCategoriesToDatabase, try_catch, andThen, await.
  rewrite Hu, Hid.
  destruct (truthy (Browse.documentId render)); rewrite awaitReply_run;
    destruct (outcome _) as [response|r]; cbn;
    try destruct (response_has_id response); cbn;
    by rewrite ?app_assoc, ?last_snoc, ?last_cons, ?last_snoc.
Qed.

Lemma save_reports_success_iff_persisted_example :
  last (events_of (run (Browse.saveCategoriesToDatabase Browse.initial
                          appwriteCreateDown ["Social Events"])
                     Browse.initial))
  = Some (ConsoleLog "Error saving categories:"
            (Some "Document limit reached")).
Proof.
  exact (save_reports_success_iff_persisted Browse.initial appwriteCreateDown
           ["Social Events"] Browse.initial (Some ann) eq_refl eq_refl).
Defined.

(** X8. In the create branch, when [createpreferences] resolves with a
    document that has an identifier, that identifier is what the
    [documentId] cell holds afterwards. *)
Theorem create_caches_the_returned_id render appwrite categories s user
    response :
  getCurrentUser appwrite = Resolved user →
  has_id user = true →
  truthy (Browse.documentId render) = false →
  outcome (createpreferences appwrite
             (default EmptyString (user ≫= user_id)) categories)
  = Resolved response →
  response_has_id response = true →
  let saved :=
    run (Browse.saveCategoriesToDatabase render appwrite categories) s in
  Browse.documentId (state_of saved) = response ≫= doc_id
  ∧ truthy (Browse.documentId (state_of saved)) = true
  ∧ count is_console (events_of saved) = 0.
Proof.
  intros Hu Hid Hdoc Hcreate Hresp saved. subst saved.
  unfold run, Browse.saveCategoriesToDatabase, try_catch, andThen, await.
  rewrite Hu, Hid, Hdoc, awaitReply_run, Hcreate, Hresp. cbn -[count].
  split; [done|]. split.
  - destruct response as [[id]|]; [|done]. exact Hresp.
  - rewrite !count_cons, !count_app, !count_cons. by rewrite count_snackbars.
Qed.

Lemma create_caches_the_returned_id_example :
  let saved :=
    run (Browse.saveCategoriesToDatabase Browse.initial appwriteOk
           ["Social Events"]) Browse.initial in
  Browse.documentId (state_of saved) = Some "d1"
  ∧ truthy (Browse.documentId (state_of saved)) = true
  ∧ count is_console (events_of saved) = 0.
Proof.
  exact (create_caches_the_returned_id Browse.initial appwriteOk
           ["Social Events"] Browse.initial (Some ann)
           (Some {| doc_id := Some "d1";
                    interested_categories := ["Social Events"] |})
           eq_refl eq_refl eq_refl eq_refl eq_refl).
Defined.

(** X9. A save changes the [documentId] cell in one case only: its create
    call resolved with a document that has an identifier. *)
Theorem documentId_changes_only_on_create render appwrite categories s :
  let saved :=
    run (Browse.saveCategoriesToDatabase render appwrite categories) s in
  Browse.documentId (state_of saved) ≠ Browse.documentId s →
  ∃ user response,
    getCurrentUser appwrite = Resolved user
    ∧ has_id user = true
    ∧ truthy (Browse.documentId render) = false
    ∧ outcome (createpreferences appwrite
                 (default EmptyString (user ≫= user_id)) categories)
      = Resolved response
    ∧ response_has_id response = true
    ∧ count is_create (events_of saved) = 1.
Proof.
  intros saved. subst saved.
  unfold run, Browse.saveCategoriesToDatabase, try_catch, andThen, await.
  destruct (getCurrentUser appwrite) as [user|r]; [|done].
  destruct (has_id user) eqn:Hid; [|done].
  destruct (truthy (Browse.documentId render)) eqn:Hdoc; rewrite awaitReply_run.
  - destruct (shownState_frame
                (shown (savepreferences appwrite
                   (default EmptyString (Browse.documentId render))
                   (default EmptyString (user ≫= user_id)) categories)) s)
      as (_&_&_&Hd&_).
    by destruct (outcome _) as [response|r].
  - destruct (shownState_frame
                (shown (createpreferences appwrite
                   (default EmptyString (user ≫= user_id)) categories)) s)
      as (_&_&_&Hd&_).
    destruct (outcome _) as [response|r] eqn:Hcreate; [|done].
    destruct (response_has_id response) eqn:Hresp; [|done].
    cbn -[count]. intros _. exists user, response.
    repeat split; try done.
    rewrite !count_cons, !count_app, !count_cons. by rewrite count_snackbars.
Qed.

Lemma documentId_changes_only_on_create_example :
  ∃ user response,
    getCurrentUser appwriteOk = Resolved user
    ∧ has_id user = true
    ∧ truthy (Browse.documentId Browse.initial) = false
    ∧ outcome (createpreferences appwriteOk
                 (default EmptyString (user ≫= user_id)) ["Social Events"])
      = Resolved response
    ∧ response_has_id response = true
    ∧ count is_create
        (events_of (run (Browse.saveCategoriesToDatabase Browse.initial
                           appwriteOk ["Social Events"]) Browse.initial)) = 1.
Proof.
  apply (documentId_changes_only_on_create Browse.initial appwriteOk
           ["Social Events"] Browse.initial).
  vm_compute. discriminate.
Defined.

(** ** Refreshing and loading *)

(** [loadSavedCategories] does not touch [newsData]. *)
Lemma load_keeps_news appwrite s :
  Browse.newsData (state_of (run (Browse.loadSavedCategories appwrite) s))
  = Browse.newsData s.
Proof.
  unfold run, Browse.loadSavedCategories, try_catch, andThen, await.
  destruct (getCurrentUser appwrite) as [user|r]; [|done].
  destruct (has_id user); [|done].
  rewrite awaitReply_run.
  destruct (getpreferences appwrite _) as [msgs [[document|]|r]]; cbn;
    by destruct (shownState_frame msgs s) as (_&?&_).
Qed.

(** X10. A pull-to-refresh always ends with the refresh indicator off and
    the error cell cleared, and its promise resolves, whatever the backend
    answers: [loadSavedCategories] swallows every rejection, so the
    [catch] of [onRefresh] never runs and "Failed to refresh data" is never
    shown. *)
Theorem refresh_never_reports_failure appwrite s :
  let refreshed := run (Browse.onRefresh appwrite) s in
  settled refreshed = Resolved tt
  ∧ BrowseView.refreshing (state_of refreshed) = false
  ∧ Browse.error (state_of refreshed) = None
  ∧ BrowseView.errorBanner (state_of refreshed) = None
  ∧ Browse.newsData (state_of refreshed) = Browse.newsData s.
Proof.
  intros refreshed. subst refreshed.
  unfold run, Browse.onRefresh, try_finally, try_catch, andThen.
  cbn [Browse.setIsRefreshing setState].
  match goal with
  | |- context [Browse.loadSavedCategories appwrite ?s0] =>
      pose proof (load_settles appwrite s0) as Hok;
      pose proof (load_keeps_news appwrite s0) as Hnews;
      unfold run in Hok, Hnews;
      destruct (Browse.loadSavedCategories appwrite s0) as [[o s1] e1]
  end.
  cbn in Hok, Hnews. subst o. by cbn.
Qed.

(** X11. When the user has an identifier and [getpreferences] resolves with
    a document, [loadSavedCategories] replaces the selection by the
    document's categories and the [documentId] cell by the document's
    identifier; it writes nothing to the console and persists nothing. *)
Theorem load_adopts_the_stored_document appwrite s user messages document :
  getCurrentUser appwrite = Resolved user →
  has_id user = true →
  getpreferences appwrite (default EmptyString (user ≫= user_id))
  = {| shown := messages; outcome := Resolved (Some document) |} →
  let loaded := run (Browse.loadSavedCategories appwrite) s in
  Browse.selectedCategories (state_of loaded) = interested_categories document
  ∧ Browse.documentId (state_of loaded) = doc_id document
  ∧ Browse.newsData (state_of loaded) = Browse.newsData s
  ∧ count is_console (events_of loaded) = 0
  ∧ count is_persistence (events_of loaded) = 0.
Proof.
  intros Hu Hid Hprefs loaded. subst loaded.
  unfold run, Browse.loadSavedCategories, try_catch, andThen, await.
  rewrite Hu, Hid, awaitReply_run, Hprefs. cbn -[count].
  destruct (shownState_frame messages s) as (_&?&_).
  repeat split; try done;
    rewrite !count_cons, !count_app, !count_cons; by rewrite count_snackbars.
Qed.

Lemma load_adopts_the_stored_document_example :
  let loaded :=
    run (Browse.loadSavedCategories appwriteReturning) (Browse.cells browsing) in
  Browse.selectedCategories (state_of loaded)
  = ["Social Events"; "Political Events"]
  ∧ Browse.documentId (state_of loaded) = Some "d7"
  ∧ Browse.newsData (state_of loaded) = Browse.newsData (Browse.cells browsing)
  ∧ count is_console (events_of loaded) = 0
  ∧ count is_persistence (events_of loaded) = 0.
Proof.
  exact (load_adopts_the_stored_document appwriteReturning
           (Browse.cells browsing) (Some ann) []
           {| doc_id := Some "d7";
              interested_categories := ["Social Events"; "Political Events"] |}
           eq_refl eq_refl eq_refl).
Defined.

(** ** The requests of a fetch *)

(** A loop that ran to its end asked once for every category, in order. *)
Lemma fetch_loop_requests newsService categories acc s acc' events :
  for_of categories acc (Browse.fetchCategory newsService) s
  = (Resolved acc', s, events) →
  events = category_requests categories.
Proof.
  revert acc events. induction categories as [|c rest IH]; intros acc events.
  - cbn. by intros [= _ <-].
  - cbn [for_of]. unfold andThen at 1, Browse.fetchCategory at 1.
    unfold andThen at 1, await.
    destruct (getCategoryNewsFromAPI newsService [c]) as [response|r]; [|done].
    cbn [rejection_of].
    destruct (response ≫= (λ r, r !! c)) as [articles|]; cbn [pure];
      (destruct (for_of rest _ _ s) as [[o' s'] ev'] eqn:E;
       intros [= -> -> <-]; cbn; f_equal; by eapply IH).
Qed.

(** The loop up to its first rejected call. *)
Lemma fetch_loop_stops newsService before c after reason acc s :
  (∀ b, b ∈ before →
     rejection_of (getCategoryNewsFromAPI newsService [b]) = None) →
  getCategoryNewsFromAPI newsService [c] = Rejected reason →
  for_of (before ++ c :: after) acc (Browse.fetchCategory newsService) s
  = (Rejected reason, s,
     category_requests before
       ++ [Call (getCategoryNewsFromAPI_ [c]) (Some reason)]).
Proof.
  intros Hok Hrej. revert acc.
  induction before as [|b rest IH]; intros acc.
  - cbn [app for_of]. unfold andThen at 1, Browse.fetchCategory at 1.
    unfold andThen at 1, await. by rewrite Hrej.
  - cbn [app for_of]. unfold andThen at 1, Browse.fetchCategory at 1.
    unfold andThen at 1, await.
    pose proof (Hok b (list_elem_of_here _ _)) as Hb.
    destruct (getCategoryNewsFromAPI newsService [b]) as [response|r];
      [|done].
    assert (∀ b', b' ∈ rest →
              rejection_of (getCategoryNewsFromAPI newsService [b']) = None)
      as Hrest by (intros b' Hb'; apply Hok; by right).
    cbn [rejection_of].
    destruct (response ≫= (λ r, r !! b)) as [articles|]; cbn [pure];
      by rewrite (IH Hrest).
Qed.

(** X12. The fetch asks for the selected categories one after the other and
    gives up at the first rejected call: the categories after it are not
    requested, what the earlier ones returned is dropped ([newsData] keeps
    its old value), the spinner is switched off and the error banner reads
    "Failed to fetch news". *)
Theorem fetch_stops_at_first_rejection render newsService s
    before c after reason :
  Browse.selectedCategories render = before ++ c :: after →
  (∀ b, b ∈ before →
     rejection_of (getCategoryNewsFromAPI newsService [b]) = None) →
  getCategoryNewsFromAPI newsService [c] = Rejected reason →
  let fetched := run (Browse.fetchNewsData render newsService) s in
  events_of fetched
  = category_requests before
      ++ [Call (getCategoryNewsFromAPI_ [c]) (Some reason);
          ShowSnackbar "Error loading news"]
  ∧ Browse.newsData (state_of fetched) = Browse.newsData s
  ∧ Browse.isLoading (state_of fetched) = false
  ∧ BrowseView.errorBanner (state_of fetched) = Some "Failed to fetch news".
Proof.
  intros Hsel Hok Hrej fetched. subst fetched.
  destruct (fetchNewsData_run render newsService s)
    as (o & ev & Eloop & _ & ->).
  rewrite Hsel, (fetch_loop_stops _ _ _ _ _ _ _ Hok Hrej) in Eloop.
  injection Eloop as <- <-. cbn. by rewrite <- app_assoc.
Qed.

Lemma fetch_stops_at_first_rejection_example :
  let render :=
    Browse.cells
      (Browse.presses [(appwriteOk, news25, "Political Events");
                       (appwriteOk, news25, "Cultural Events")] browsing).1 in
  let fetched :=
    run (Browse.fetchNewsData render newsPartlyDown) render in
  events_of fetched
  = category_requests ["Social Events"]
      ++ [Call (getCategoryNewsFromAPI_ ["Political Events"])
            (Some "Network request failed");
          ShowSnackbar "Error loading news"]
  ∧ Browse.newsData (state_of fetched) = Browse.newsData render
  ∧ Browse.isLoading (state_of fetched) = false
  ∧ BrowseView.errorBanner (state_of fetched) = Some "Failed to fetch news".
Proof.
  apply (fetch_stops_at_first_rejection _ newsPartlyDown _
           ["Social Events"] "Political Events" ["Cultural Events"]
           "Network request failed").
  - reflexivity.
  - intros b Hb. apply list_elem_of_singleton in Hb. by subst.
  - reflexivity.
Defined.

(** ** A fetch that succeeds *)

(** A fetch whose calls all resolve: its events, the cells it leaves, and
    the object it stores. *)
Lemma fetch_success render newsService s :
  (∀ c, c ∈ Browse.selectedCategories render →
     rejection_of (getCategoryNewsFromAPI newsService [c]) = None) →
  ∃ collected,
    run (Browse.fetchNewsData render newsService) s
    = (Resolved tt,
       state_of (run (Browse.setNewsData collected ;;;
                      Browse.setIsLoading false)
                   (state_of (run (Browse.setIsLoading true ;;;
                                   Browse.setError None) s))),
       category_requests (Browse.selectedCategories render))
    ∧ ∀ k, collected !! k
           = if bool_decide (k ∈ Browse.selectedCategories render)
             then take 20 <$>
                    match getCategoryNewsFromAPI newsService [k] with
                    | Resolved response => response ≫= (λ r, r !! k)
                    | Rejected _ => None
                    end
             else None.
Proof.
  intros Hok.
  destruct (fetchNewsData_run render newsService s)
    as (o & ev & Eloop & _ & Erun).
  destruct (fetch_loop_result newsService (Browse.selectedCategories render) ∅
              (state_of (run (Browse.setIsLoading true ;;;
                              Browse.setError None) s)) Hok)
    as (acc' & ev' & Eloop' & Hstored & Hfrom & Hout).
  rewrite Eloop in Eloop'. injection Eloop' as -> ->.
  pose proof (fetch_loop_requests _ _ _ _ _ _ Eloop) as ->.
  exists acc'. split; [done|]. intros k.
  destruct (decide (k ∈ Browse.selectedCategories render)) as [Hin|Hin].
  - rewrite bool_decide_eq_true_2 by done.
    specialize (Hok k Hin).
    destruct (getCategoryNewsFromAPI newsService [k]) as [response|r] eqn:E;
      [|done].
    destruct (response ≫= (λ r, r !! k)) as [a|] eqn:Ea.
    + destruct response as [m|]; [|done]. by apply (Hstored k m a).
    + destruct (acc' !! k) as [l|] eqn:El; [|done].
      destruct (Hfrom k l El) as [H0|(m & a & Em & Ea' & _)].
      * by rewrite lookup_empty in H0.
      * rewrite E in Em. injection Em as ->. cbn in Ea. congruence.
  - rewrite bool_decide_eq_false_2 by done.
    by rewrite (Hout k Hin), lookup_empty.
Qed.

(** X13. A fetch whose calls all resolve asks once for every selected
    category, in order, switches the spinner off, clears the error banner
    and replaces [newsData] by a fresh object: a selected category maps to
    the first twenty articles the service returned under its name (to
    nothing when the service returned none), and every other key is
    absent. *)
Theorem successful_fetch_replaces_news render newsService s :
  (∀ c, c ∈ Browse.selectedCategories render →
     rejection_of (getCategoryNewsFromAPI newsService [c]) = None) →
  let fetched := run (Browse.fetchNewsData render newsService) s in
  events_of fetched = category_requests (Browse.selectedCategories render)
  ∧ Browse.isLoading (state_of fetched) = false
  ∧ BrowseView.errorBanner (state_of fetched) = None
  ∧ ∀ k, Browse.newsData (state_of fetched) !! k
         = if bool_decide (k ∈ Browse.selectedCategories render)
           then take 20 <$>
                  match getCategoryNewsFromAPI newsService [k] with
                  | Resolved response => response ≫= (λ r, r !! k)
                  | Rejected _ => None
                  end
           else None.
Proof.
  intros Hok fetched. subst fetched.
  destruct (fetch_success render newsService s Hok) as (collected & -> & Hk).
  by cbn.
Qed.

Lemma successful_fetch_replaces_news_example :
  let render := Browse.cells browsing in
  let fetched := run (Browse.fetchNewsData render news25) render in
  events_of fetched = category_requests ["Social Events"]
  ∧ Browse.isLoading (state_of fetched) = false
  ∧ BrowseView.errorBanner (state_of fetched) = None
  ∧ ∀ k, Browse.newsData (state_of fetched) !! k
         = if bool_decide (k ∈ ["Social Events"])
           then take 20 <$>
                  match getCategoryNewsFromAPI news25 [k] with
                  | Resolved response => response ≫= (λ r, r !! k)
                  | Rejected _ => None
                  end
           else None.
Proof.
  apply (successful_fetch_replaces_news (Browse.cells browsing) news25
           (Browse.cells browsing)).
  intros c _. reflexivity.
Defined.

(** ** A press and the news it fetches *)

Lemma save_fetches_no_news render appwrite categories s :
  List.filter is_news_fetch
    (events_of (run (Browse.saveCategoriesToDatabase render appwrite
                       categories) s)) = [].
Proof.
  apply nil_length_inv. apply save_no_news_fetch.
Qed.

Lemma category_requests_are_fetches categories :
  List.filter is_news_fetch (category_requests categories)
  = category_requests categories.
Proof.
  induction categories as [|c rest IH]; [done|].
  change (category_requests (c :: rest))
    with (Call (getCategoryNewsFromAPI_ [c]) None :: category_requests rest).
  cbn [List.filter is_news_fetch]. by rewrite IH.
Qed.

(** A press whose news calls all resolve, in terms of its save and of the
    object the fetch collects. *)
Lemma press_fetch_success appwrite newsService category f scope :
  Browse.toggleCategory_memo f = Some scope →
  let updated :=
    Browse.updatedCategories (Browse.selectedCategories (Browse.cells f))
      category in
  (∀ c, c ∈ updated →
     rejection_of (getCategoryNewsFromAPI newsService [c]) = None) →
  let pressed := Browse.press appwrite newsService category f in
  List.filter is_news_fetch pressed.2 = category_requests updated
  ∧ (updated ≠ [] →
     ∀ k, Browse.newsData (Browse.cells pressed.1) !! k
          = if bool_decide (k ∈ updated)
            then take 20 <$>
                   match getCategoryNewsFromAPI newsService [k] with
                   | Resolved response => response ≫= (λ r, r !! k)
                   | Rejected _ => None
                   end
            else None).
Proof.
  intros Hmemo updated Hok pressed. subst pressed.
  rewrite (press_unfold _ _ _ _ _ Hmemo). cbn [fst snd Browse.cells].
  rewrite toggleCategory_run. cbn [state_of events_of fst snd].
  fold updated.
  rewrite List.filter_app, save_fetches_no_news. cbn [app].
  match goal with
  | |- context [Browse.newsEffect ?r newsService] => set (s1 := r)
  end.
  assert (Browse.selectedCategories s1 = updated) as Hsel by done.
  unfold Browse.newsEffect. rewrite Hsel.
  destruct updated as [|c0 rest] eqn:Eupd.
  - split; [done|]. by intros [].
  - cbn [length Nat.ltb Nat.leb].
    destruct (fetch_success s1 newsService s1) as (collected & Erun & Hk).
    { by rewrite Hsel. }
    unfold run, floating in *. rewrite Erun, Hsel. cbn [fst snd].
    split; [apply category_requests_are_fetches|].
    intros _ k. rewrite <- Hk. done.
Qed.

(** X14. On a mounted Browse screen, when the news calls of a press all
    resolve, the press asks the news service once for each category of the
    selection it leaves, in the order of that selection, and for nothing
    else (for nothing at all when the selection is left empty). *)
Theorem press_requests_follow_selection appwrite newsService category f scope :
  Browse.toggleCategory_memo f = Some scope →
  let pressed := Browse.press appwrite newsService category f in
  let after := Browse.selectedCategories (Browse.cells pressed.1) in
  (∀ c, c ∈ after →
     rejection_of (getCategoryNewsFromAPI newsService [c]) = None) →
  List.filter is_news_fetch pressed.2 = category_requests after.
Proof.
  intros Hmemo pressed after. subst after pressed.
  rewrite (press_selection _ _ _ _ _ Hmemo). intros Hok.
  by destruct (press_fetch_success appwrite newsService category f scope
                 Hmemo Hok) as [-> _].
Qed.

Lemma press_requests_follow_selection_example :
  let pressed := Browse.press appwriteOk news25 "Political Events" browsing in
  List.filter is_news_fetch pressed.2
  = category_requests (Browse.selectedCategories (Browse.cells pressed.1)).
Proof.
  apply (press_requests_follow_selection appwriteOk news25 "Political Events"
           browsing Browse.initial eq_refl).
  intros c _. reflexivity.
Defined.

(** X15. On a mounted Browse screen, deselecting a category while another
    one stays selected removes its articles from [newsData], provided the
    news calls for the categories that stay selected resolve: the fetch
    that follows stores a fresh object with entries for selected categories
    only. Whether the news service would answer for the deselected
    category does not matter. *)
Theorem deselected_category_loses_its_articles appwrite newsService category
    other f scope :
  Browse.toggleCategory_memo f = Some scope →
  category ∈ Browse.selectedCategories (Browse.cells f) →
  other ∈ Browse.selectedCategories (Browse.cells f) →
  other ≠ category →
  let pressed := Browse.press appwrite newsService category f in
  (∀ c, c ∈ Browse.selectedCategories (Browse.cells pressed.1) →
     rejection_of (getCategoryNewsFromAPI newsService [c]) = None) →
  Browse.newsData (Browse.cells pressed.1) !! category = None
  ∧ ∀ k, is_Some (Browse.newsData (Browse.cells pressed.1) !! k) →
         k ∈ Browse.selectedCategories (Browse.cells pressed.1).
Proof.
  intros Hmemo Hin Hother Hne pressed. subst pressed.
  rewrite (press_selection _ _ _ _ _ Hmemo). intros Hok.
  pose proof (updatedCategories_elem_of
                (Browse.selectedCategories (Browse.cells f)) category) as Hmem.
  destruct (press_fetch_success appwrite newsService category f scope Hmemo
              Hok) as [_ Hnews].
  assert (Browse.updatedCategories
            (Browse.selectedCategories (Browse.cells f)) category ≠ [])
    as Hnonempty.
  { intros E. assert (other ∈ Browse.updatedCategories
                        (Browse.selectedCategories (Browse.cells f)) category)
      as Ho by (apply Hmem; by left).
    rewrite E in Ho. by apply elem_of_nil in Ho. }
  specialize (Hnews Hnonempty). split.
  - rewrite Hnews. rewrite bool_decide_eq_false_2; [done|].
    rewrite Hmem. naive_solver.
  - intros k [l Hl]. rewrite Hnews in Hl.
    destruct (decide (k ∈ Browse.updatedCategories
                        (Browse.selectedCategories (Browse.cells f)) category));
      [done|].
    by rewrite bool_decide_eq_false_2 in Hl.
Qed.

Lemma deselected_category_loses_its_articles_example :
  let f := (Browse.press appwriteOk news25 "Political Events" browsing).1 in
  let pressed := Browse.press appwriteOk newsPartlyDown "Political Events" f in
  Browse.newsData (Browse.cells pressed.1) !! "Political Events" = None
  ∧ ∀ k, is_Some (Browse.newsData (Browse.cells pressed.1) !! k) →
         k ∈ Browse.selectedCategories (Browse.cells pressed.1).
Proof.
  apply (deselected_category_loses_its_articles appwriteOk newsPartlyDown
           "Political Events" "Social Events"
           (Browse.press appwriteOk news25 "Political Events" browsing).1
           Browse.initial).
  - reflexivity.
  - vm_compute. right. by left.
  - vm_compute. by left.
  - discriminate.
  - intros c Hc. vm_compute in Hc.
    apply list_elem_of_singleton in Hc. by subst c.
Defined.

(** X16. After a fetch with a rejected call, a screen that was showing
    articles goes on showing the same articles: the news container renders
    the sections of the old [newsData], next to the error banner. *)
Theorem failed_fetch_keeps_old_articles render newsService s request reason :
  Call request (Some reason)
    ∈ events_of (run (Browse.fetchNewsData render newsService) s) →
  Browse.selectedCategories s ≠ [] →
  Browse.newsData s ≠ ∅ →
  let fetched := run (Browse.fetchNewsData render newsService) s in
  Browse.newsContainer (state_of fetched)
  = Browse.Articles (map_to_list (Browse.newsData s))
  ∧ BrowseView.errorBanner (state_of fetched) = Some "Failed to fetch news".
Proof.
  intros Hin Hsel Hnews fetched. subst fetched.
  destruct (fetch_rejection render newsService s) as (_ & _ & Hrej).
  destruct (Hrej request reason Hin) as (Herr & _ & Hload & Hnd & Hsc & _).
  unfold Browse.newsContainer, BrowseView.errorBanner.
  rewrite Herr, Hload, Hnd, Hsc. split; [|done].
  destruct (Browse.selectedCategories s) as [|c rest]; [done|]. cbn.
  destruct (Nat.eqb_spec (size (Browse.newsData s)) 0) as [Hsize|_]; [|done].
  by apply map_size_empty_inv in Hsize.
Qed.

Lemma failed_fetch_keeps_old_articles_example :
  let s := Browse.cells browsing in
  let fetched := run (Browse.fetchNewsData s newsDown) s in
  Browse.newsContainer (state_of fetched)
  = Browse.Articles (map_to_list (Browse.newsData s))
  ∧ BrowseView.errorBanner (state_of fetched) = Some "Failed to fetch news".
Proof.
  apply (failed_fetch_keeps_old_articles (Browse.cells browsing) newsDown
           (Browse.cells browsing) (getCategoryNewsFromAPI_ ["Social Events"])
           "Network request failed").
  - vm_compute. by left.
  - discriminate.
  - intros E. apply (f_equal (λ m, length <$> m !! "Social Events")) in E.
    vm_compute in E. discriminate.
Defined.

(** ** Mounting the Browse screen *)

Lemma filter_snackbars p (messages : list string) :
  (∀ m, p (ShowSnackbar m) = false) →
  List.filter p (ShowSnackbar <$> messages) = [].
Proof.
  intros Hp. induction messages as [|m rest IH]; [done|].
  cbn. by rewrite Hp.
Qed.

(** Mounting, in terms of the user effect and of the news effect that
    follows it; the news effect of the first render finds no category. *)
Lemma mounted_unfold appwrite newsService :
  let loaded := run (Browse.userEffect appwrite) Browse.initial in
  let fetched :=
    run (Browse.newsEffect (state_of loaded) newsService) (state_of loaded) in
  Browse.mounted appwrite newsService
  = ({| Browse.cells := state_of fetched;
        Browse.toggleCategory_memo := Some Browse.initial |},
     events_of loaded ++ events_of fetched).
Proof. reflexivity. Qed.

(** X17. Mounting the Browse screen for a user with an identifier whose
    preference document the backend returns puts the user's name and email,
    the document's categories and the document's identifier into the cells
    and persists nothing, whatever the news service answers; when the news
    calls for the stored categories resolve, the news service is asked once
    for each stored category, in the stored order. *)
Theorem mount_restores_saved_preferences appwrite newsService account
    messages document :
  getCurrentUser appwrite = Resolved (Some account) →
  has_id (Some account) = true →
  getpreferences appwrite (default EmptyString (user_id account))
  = {| shown := messages; outcome := Resolved (Some document) |} →
  let mounted := Browse.mounted appwrite newsService in
  Browse.userData (Browse.cells mounted.1)
  = Some {| name := user_name account; email := user_email account |}
  ∧ Browse.selectedCategories (Browse.cells mounted.1)
    = interested_categories document
  ∧ Browse.documentId (Browse.cells mounted.1) = doc_id document
  ∧ count is_persistence mounted.2 = 0
  ∧ ((∀ c, c ∈ interested_categories document →
        rejection_of (getCategoryNewsFromAPI newsService [c]) = None) →
     List.filter is_news_fetch mounted.2
     = category_requests (interested_categories document)).
Proof.
  intros Hu Hid Hprefs mounted. subst mounted.
  rewrite mounted_unfold. cbn [fst snd Browse.cells].
  set (loaded := run (Browse.userEffect appwrite) Browse.initial).
  assert (events_of loaded
          = [Call getCurrentUser_ None; Call getCurrentUser_ None]
              ++ (ShowSnackbar <$> messages)
              ++ [Call (getpreferences_
                          (default EmptyString (user_id account))) None]
          ∧ Browse.userData (state_of loaded)
            = Some {| name := user_name account; email := user_email account |}
          ∧ Browse.selectedCategories (state_of loaded)
            = interested_categories document
          ∧ Browse.documentId (state_of loaded) = doc_id document)
    as (Eev & Hud & Hsel & Hdoc).
  { subst loaded.
    unfold run, Browse.userEffect, Browse.loadSavedCategories, floating,
      try_catch, andThen, await.
    rewrite Hu. cbn [rejection_of Browse.setUserData setState].
    rewrite Hid. cbn [mbind option_bind].
    rewrite awaitReply_run, Hprefs. cbn.
    destruct (shownState_frame messages
                {| Browse.userData :=
                     Some {| name := user_name account;
                             email := user_email account |};
                   Browse.newsData := ∅;
                   Browse.selectedCategories := [];
                   Browse.snackbarVisible := false;
                   Browse.snackbarMessage := EmptyString;
                   Browse.documentId := None;
                   Browse.isLoading := false;
                   Browse.isRefreshing := false;
                   Browse.error := None |}) as (Hud&_).
    repeat split; try done. by rewrite !app_nil_r. }
  set (s2 := state_of loaded) in *.
  rewrite Eev.
  destruct (newsEffect_frame s2 newsService s2) as (Hsel' & Hdoc' & Hud' & _).
  cbv zeta in Hsel', Hdoc', Hud'.
  rewrite Hsel', Hdoc', Hud', Hud, Hsel, Hdoc.
  split; [done|]. split; [done|]. split; [done|]. split.
  - rewrite count_app, newsEffect_no_persistence, Nat.add_0_r.
    cbn -[count]. rewrite !count_cons, !count_app, !count_cons.
    by rewrite count_snackbars.
  - intros Hok. rewrite List.filter_app.
    assert (List.filter is_news_fetch
              ([Call getCurrentUser_ None; Call getCurrentUser_ None]
                 ++ (ShowSnackbar <$> messages)
                 ++ [Call (getpreferences_
                             (default EmptyString (user_id account))) None])
            = []) as ->.
    { cbn. rewrite List.filter_app. cbn. rewrite app_nil_r.
      by apply filter_snackbars. }
    cbn [app]. unfold Browse.newsEffect. rewrite Hsel.
    destruct (interested_categories document) as [|c0 rest] eqn:Ecs; [done|].
    cbn [length Nat.ltb Nat.leb].
    destruct (fetch_success s2 newsService s2) as (collected & Efetch & _).
    { by rewrite Hsel. }
    unfold run, floating in *. rewrite Efetch, Hsel. cbn [events_of snd].
    apply category_requests_are_fetches.
Qed.

Lemma mount_restores_saved_preferences_example :
  let mounted := Browse.mounted appwriteReturning news25 in
  Browse.userData (Browse.cells mounted.1)
  = Some {| name := "Ann"; email := "ann@example.org" |}
  ∧ Browse.selectedCategories (Browse.cells mounted.1)
    = ["Social Events"; "Political Events"]
  ∧ Browse.documentId (Browse.cells mounted.1) = Some "d7"
  ∧ count is_persistence mounted.2 = 0
  ∧ List.filter is_news_fetch mounted.2
    = category_requests ["Social Events"; "Political Events"].
Proof.
  destruct (mount_restores_saved_preferences appwriteReturning news25 ann []
              {| doc_id := Some "d7";
                 interested_categories :=
                   ["Social Events"; "Political Events"] |}
              eq_refl eq_refl eq_refl) as (Hud & Hsel & Hdoc & Hnone & Hreq).
  split; [exact Hud|]. split; [exact Hsel|]. split; [exact Hdoc|].
  split; [exact Hnone|]. apply Hreq. intros c _. reflexivity.
Defined.

(** The same mount while the news service is down: the preferences are
    restored all the same. *)
Lemma mount_restores_preferences_without_news :
  let mounted := Browse.mounted appwriteReturning newsDown in
  Browse.selectedCategories (Browse.cells mounted.1)
  = ["Social Events"; "Political Events"]
  ∧ Browse.documentId (Browse.cells mounted.1) = Some "d7"
  ∧ count is_persistence mounted.2 = 0.
Proof. by vm_compute. Qed.

(** X18. When [getCurrentUser] does not resolve with a user, mounting the
    Browse screen leaves every cell at its initial value, asks for neither
    preferences nor news, and the news container invites the user to select
    categories. *)
Theorem mount_without_user_stays_initial appwrite newsService :
  (∀ account, getCurrentUser appwrite ≠ Resolved (Some account)) →
  let mounted := Browse.mounted appwrite newsService in
  Browse.cells mounted.1 = Browse.initial
  ∧ mounted.2
    = match getCurrentUser appwrite with
      | Resolved _ => [Call getCurrentUser_ None]
      | Rejected reason =>
          [Call getCurrentUser_ (Some reason); UnhandledRejection reason]
      end
  ∧ count is_news_fetch mounted.2 = 0
  ∧ Browse.newsContainer (Browse.cells mounted.1)
    = Browse.EmptyStateText "Select categories to see news".
Proof.
  intros Hnone mounted. subst mounted. rewrite mounted_unfold.
  unfold run, Browse.userEffect, floating, andThen, await.
  destruct (getCurrentUser appwrite) as [[account|]|reason] eqn:Hu.
  - by destruct (Hnone account).
  - by cbn.
  - by cbn.
Qed.

Lemma mount_without_user_stays_initial_example :
  let mounted := Browse.mounted appwriteDown news25 in
  Browse.cells mounted.1 = Browse.initial
  ∧ mounted.2
    = [Call getCurrentUser_ (Some "Network request failed");
       UnhandledRejection "Network request failed"]
  ∧ count is_news_fetch mounted.2 = 0
  ∧ Browse.newsContainer (Browse.cells mounted.1)
    = Browse.EmptyStateText "Select categories to see news".
Proof.
  apply (mount_without_user_stays_initial appwriteDown news25).
  discriminate.
Defined.

(** ** The Trending screen *)

(** The loop over the entries is the slice applied to every value. *)
Lemma sliceEntries_fmap (response : gmap string (list NewsArticle)) :
  Trending.sliceEntries response = take 20 <$> response.
Proof.
  apply map_eq. intros k. by rewrite sliceEntries_lookup, lookup_fmap.
Qed.

(** X19. When [getTrendingNewsFromAPI] resolves, the Trending screen stores
    the response with every list cut to its first twenty articles, under
    the same keys, or the empty object when the response is empty; the user
    cell is not touched and the call is the only event. *)
Theorem trending_stores_sliced_response newsService t response :
  getTrendingNewsFromAPI newsService = Resolved response →
  let fetched := run (Trending.fetchNewsData newsService) t in
  Trending.newsData (state_of fetched)
  = match response with
    | Some entries => take 20 <$> entries
    | None => ∅
    end
  ∧ Trending.userData (state_of fetched) = Trending.userData t
  ∧ events_of fetched = [Call getTrendingNewsFromAPI_ None].
Proof.
  intros Hresp fetched. subst fetched.
  unfold run, Trending.fetchNewsData, try_catch, andThen, await.
  rewrite Hresp. cbn. destruct response as [entries|]; [|done].
  by rewrite sliceEntries_fmap.
Qed.

Lemma trending_stores_sliced_response_example :
  let fetched := run (Trending.fetchNewsData news25) Trending.initial in
  Trending.newsData (state_of fetched)
  = take 20 <$> ({[ "general" := articles 25 ]} : gmap string (list NewsArticle))
  ∧ Trending.userData (state_of fetched) = None
  ∧ events_of fetched = [Call getTrendingNewsFromAPI_ None].
Proof.
  exact (trending_stores_sliced_response news25 Trending.initial
           (Some {[ "general" := articles 25 ]}) eq_refl).
Defined.

(** X20. A trending response in which no category has more than twenty
    articles is stored exactly as it was received. *)
Theorem trending_keeps_short_lists newsService t entries :
  getTrendingNewsFromAPI newsService = Resolved (Some entries) →
  (∀ k l, entries !! k = Some l → length l ≤ 20) →
  Trending.newsData (state_of (run (Trending.fetchNewsData newsService) t))
  = entries.
Proof.
  intros Hresp Hshort.
  unfold run, Trending.fetchNewsData, try_catch, andThen, await.
  rewrite Hresp. cbn. rewrite sliceEntries_fmap.
  apply map_eq. intros k. rewrite lookup_fmap.
  destruct (entries !! k) as [l|] eqn:E; [|done].
  cbn. f_equal. apply take_ge. by apply Hshort with k.
Qed.

Lemma trending_keeps_short_lists_example :
  Trending.newsData
    (state_of
       (run (Trending.fetchNewsData newsShort) Trending.initial))
  = {[ "general" := articles 3 ]}.
Proof.
  apply (trending_keeps_short_lists newsShort Trending.initial
           {[ "general" := articles 3 ]} eq_refl).
  intros k l Hl. apply lookup_singleton_Some in Hl as [_ <-].
  vm_compute. lia.
Defined.

(** X21. What the Trending screen fetches and stores on mount does not
    depend on the auth collaborator: the same news is stored whether
    [getCurrentUser] resolves with a user, resolves with nothing or is
    rejected, after exactly one call to the news service and no persistence
    call. *)
Theorem trending_news_needs_no_user appwrite1 appwrite2 newsService :
  Trending.newsData (Trending.mounted appwrite1 newsService).1
  = Trending.newsData (Trending.mounted appwrite2 newsService).1
  ∧ List.filter is_news_fetch (Trending.mounted appwrite1 newsService).2
    = [Call getTrendingNewsFromAPI_
         (rejection_of (getTrendingNewsFromAPI newsService))]
  ∧ count is_persistence (Trending.mounted appwrite1 newsService).2 = 0.
Proof.
  unfold Trending.mounted, run, Trending.userEffect, Trending.fetchNewsData,
    floating, try_catch, andThen, await.
  destruct (getCurrentUser appwrite1) as [[a1|]|r1];
    destruct (getCurrentUser appwrite2) as [[a2|]|r2];
    by destruct (getTrendingNewsFromAPI newsService) as [[entries|]|r].
Qed.

(** ** The root component *)

(** X22. When [getCurrentUser] resolves with nothing, [App] switches the
    loading screen off and never calls [setIsLoggedIn]: the flag of the
    context keeps the value it had, and the entry route follows it ("Home"
    if the context was already logged in). *)
Theorem empty_resolve_keeps_the_flag isLoggedIn0 appwrite :
  getCurrentUser appwrite = Resolved None →
  let started := App.started isLoggedIn0 appwrite in
  App.isLoggedIn started.1 = isLoggedIn0
  ∧ App.isLoading started.1 = false
  ∧ App.view started.1
    = App.RouteStack (if isLoggedIn0 then "Home" else "Login").
Proof.
  intros Hu started. subst started.
  unfold App.started, App.authEffect, run, floating, try_catch, andThen, await.
  by rewrite Hu.
Qed.

Lemma empty_resolve_keeps_the_flag_example :
  let started := App.started true appwriteNoUser in
  App.isLoggedIn started.1 = true
  ∧ App.isLoading started.1 = false
  ∧ App.view started.1 = App.RouteStack "Home".
Proof.
  exact (empty_resolve_keeps_the_flag true appwriteNoUser eq_refl).
Defined.

(** X23. [App] shows the loading screen until [getCurrentUser] settles and
    never afterwards, however it settles; the effect writes nothing to the
    console and leaves no rejection unhandled. *)
Theorem startup_always_leaves_loading isLoggedIn0 appwrite :
  App.view (App.initial isLoggedIn0) = App.Loading
  ∧ App.view (App.started isLoggedIn0 appwrite).1 ≠ App.Loading
  ∧ count is_console (App.started isLoggedIn0 appwrite).2 = 0
  ∧ (∀ reason,
       UnhandledRejection reason ∉ (App.started isLoggedIn0 appwrite).2).
Proof.
  rewrite authEffect_events.
  unfold App.started, App.authEffect, run, floating, try_catch, andThen, await.
  destruct (getCurrentUser appwrite) as [[account|]|r]; cbn;
    (repeat split; try done;
     intros reason Hin; by apply list_elem_of_singleton in Hin).
Qed.
